(** * Documentation notebooks and CI configuration of cobrapy

    The repository under verification holds three files: two Jupyter
    notebook files ([documentation_builder/milp.ipynb] and
    [documentation_builder/loopless.ipynb], the latter carrying two notebook
    documents, "Loopless FBA" and "FAQ") and the Travis configuration
    [.travis.yml].  The notebooks are embedded cell by cell, the
    configuration key by key, and the optimisation problems the notebooks
    state are embedded with the constants of their code cells. *)

From Stdlib Require Import String Ascii List Bool Arith ZArith QArith Qabs Lia Lqa.
From Stdlib Require Import Reals Lra.
Import ListNotations.
Local Open Scope string_scope.
Local Open Scope list_scope.

(** ** Text utilities *)

Module Text.

(** The double quote, which the transcriptions below write as a backquote
    (a character that occurs nowhere in the three files). *)
Definition dquote : ascii := "034"%char.
Definition bquote : ascii := "096"%char.

Fixpoint py (s : string) : string :=
  match s with
  | EmptyString => EmptyString
  | String c r => String (if Ascii.eqb c bquote then dquote else c) (py r)
  end.

Fixpoint contains (pat s : string) : bool :=
  prefix pat s ||
  match s with
  | EmptyString => false
  | String _ r => contains pat r
  end.

Definition starts_with (pat s : string) : bool := prefix pat s.

Definition mentions (pat : string) (ls : list string) : bool :=
  existsb (contains pat) ls.

Definition mem (x : string) (l : list string) : bool :=
  existsb (String.eqb x) l.

End Text.

(** ** The notebook format (nbformat 4), as far as the files use it *)

Module Nb.
Import Text.

Inductive cell_type := markdown | code.

Inductive output_type := stream | execute_result | display_data | error.

Record output := mkOutput {
  output_type_of : output_type;
  stream_name : option string;          (* "name" of a stream output *)
  result_count : option nat;            (* "execution_count" of a result *)
  data : list (string * list string);   (* "data": mime type -> lines *)
  text : list string                    (* "text" of a stream output *)
}.

Record cell := mkCell {
  cell_type_of : cell_type;
  execution_count : option nat;
  source : list string;
  outputs : list output
}.

Definition notebook := list cell.

(** Constructors that follow the JSON of the files.  Lines are given
    without their final newline and with ` for the double quote. *)
Definition Markdown (src : list string) : cell :=
  mkCell markdown None (map py src) [].

Definition Code (n : nat) (src : list string) (outs : list output) : cell :=
  mkCell code (Some n) (map py src) outs.

Definition Stream (nm : string) (txt : list string) : output :=
  mkOutput stream (Some (py nm)) None [] (map py txt).

Definition bundle (d : list (string * list string)) :=
  map (fun kv => (py (fst kv), map py (snd kv))) d.

Definition ExecuteResult (n : nat) (d : list (string * list string)) : output :=
  mkOutput execute_result None (Some n) (bundle d) [].

Definition DisplayData (d : list (string * list string)) : output :=
  mkOutput display_data None None (bundle d) [].

(** Every line of text an output shows, whatever its kind. *)
Definition shown (o : output) : list string :=
  text o ++ flat_map snd (data o).

Definition mime_types (o : output) : list string := map fst (data o).

Definition code_cells (nb : notebook) : list cell :=
  filter (fun c => match cell_type_of c with code => true | markdown => false end) nb.

Definition markdown_cells (nb : notebook) : list cell :=
  filter (fun c => match cell_type_of c with markdown => true | code => false end) nb.

End Nb.

(** ** The notebook documents, transcribed from the files

    Cell by cell and in the order of the files: the type of each cell, its
    execution count, the lines of its source and its outputs.  The
    [metadata] objects of cells and documents (kernel and language
    information) are left out. *)

Module Docs.
Import Nb.

(** [documentation_builder/milp.ipynb]. *)
Definition milp : notebook :=
  [ Markdown
      [ "# Mixed-Integer Linear Programming";
        "";
        "## Ice Cream";
        "";
        "This example was originally contributed by Joshua Lerman.";
        "";
        "An ice cream stand sells cones and popsicles. It wants to maximize its profit, but is subject to a budget.";
        "";
        "We can write this problem as a linear program:";
        "";
        "> **max** cone $\cdot$ cone_margin + popsicle $\cdot$ popsicle margin";
        "";
        "> *subject to*";
        "";
        "> cone $\cdot$ cone_cost + popsicle $\cdot$ popsicle_cost $\le$ budget" ];
    Code 1
      [ "cone_selling_price = 7.";
        "cone_production_cost = 3.";
        "popsicle_selling_price = 2.";
        "popsicle_production_cost = 1.";
        "starting_budget = 100." ]
      [];
    Markdown
      [ "This problem can be written as a cobra.Model" ];
    Code 2
      [ "from cobra import Model, Metabolite, Reaction";
        "";
        "cone = Reaction(`cone`)";
        "popsicle = Reaction(`popsicle`)";
        "";
        "# constrainted to a budget";
        "budget = Metabolite(`budget`)";
        "budget._constraint_sense = `L`";
        "budget._bound = starting_budget";
        "cone.add_metabolites({budget: cone_production_cost})";
        "popsicle.add_metabolites({budget: popsicle_production_cost})";
        "";
        "# objective coefficient is the profit to be made from each unit";
        "cone.objective_coefficient = cone_selling_price - cone_production_cost";
        "popsicle.objective_coefficient = popsicle_selling_price - \";
        "                                 popsicle_production_cost";
        "";
        "m = Model(`lerman_ice_cream_co`)";
        "m.add_reactions((cone, popsicle))";
        "";
        "m.optimize().x_dict" ]
      [ ExecuteResult 2
        [ ("text/plain",
          [ "{'cone': 33.333333333333336, 'popsicle': 0.0}" ]) ] ];
    Markdown
      [ "In reality, cones and popsicles can only be sold in integer amounts. We can use the variable kind attribute of a cobra.Reaction to enforce this." ];
    Code 3
      [ "cone.variable_kind = `integer`";
        "popsicle.variable_kind = `integer`";
        "m.optimize().x_dict" ]
      [ ExecuteResult 3
        [ ("text/plain",
          [ "{'cone': 33.0, 'popsicle': 1.0}" ]) ] ];
    Markdown
      [ "Now the model makes both popsicles and cones." ];
    Markdown
      [ "## Restaurant Order";
        "";
        "To tackle the less immediately obvious problem from the following [XKCD comic](http://xkcd.com/287/):" ];
    Code 4
      [ "from IPython.display import Image";
        "Image(url=r`http://imgs.xkcd.com/comics/np_complete.png`)" ]
      [ ExecuteResult 4
        [ ("text/html",
          [ "<img src=`http://imgs.xkcd.com/comics/np_complete.png`/>" ]);
          ("text/plain",
          [ "<IPython.core.display.Image object>" ]) ] ];
    Markdown
      [ "We want a solution satisfying the following constraints:";
        "";
        "$\left(\begin{matrix}2.15&2.75&3.35&3.55&4.20&5.80\end{matrix}\right) \cdot \vec v = 15.05$";
        "";
        "$\vec v_i \ge 0$";
        "";
        "$\vec v_i \in \mathbb{Z}$";
        "";
        "This problem can be written as a COBRA model as well." ];
    Code 5
      [ "total_cost = Metabolite(`constraint`)";
        "total_cost._bound = 15.05";
        "";
        "costs = {`mixed_fruit`: 2.15, `french_fries`: 2.75, `side_salad`: 3.35,";
        "         `hot_wings`: 3.55, `mozarella_sticks`: 4.20, `sampler_plate`: 5.80}";
        "";
        "m = Model(`appetizers`)";
        "";
        "for item, cost in costs.items():";
        "    r = Reaction(item)";
        "    r.add_metabolites({total_cost: cost})";
        "    r.variable_kind = `integer`";
        "    m.add_reaction(r)";
        "";
        "# To add to the problem, suppose we don't want to eat all mixed fruit.";
        "m.reactions.mixed_fruit.objective_coefficient = 1";
        "    ";
        "m.optimize(objective_sense=`minimize`).x_dict" ]
      [ ExecuteResult 5
        [ ("text/plain",
          [ "{'french_fries': 0.0,";
            " 'hot_wings': 2.0,";
            " 'mixed_fruit': 1.0,";
            " 'mozarella_sticks': 0.0,";
            " 'sampler_plate': 1.0,";
            " 'side_salad': 0.0}" ]) ] ];
    Markdown
      [ "There is another solution to this problem, which would have been obtained if we had maximized for mixed fruit instead of minimizing." ];
    Code 6
      [ "m.optimize(objective_sense=`maximize`).x_dict" ]
      [ ExecuteResult 6
        [ ("text/plain",
          [ "{'french_fries': 0.0,";
            " 'hot_wings': 0.0,";
            " 'mixed_fruit': 7.0,";
            " 'mozarella_sticks': 0.0,";
            " 'sampler_plate': 0.0,";
            " 'side_salad': 0.0}" ]) ] ];
    Markdown
      [ "## Boolean Indicators";
        "";
        "To give a COBRA-related example, we can create boolean variables as integers, which can serve as indicators for a reaction being active in a model. For a reaction flux $v$ with lower bound -1000 and upper bound 1000, we can create a binary variable $b$ with the following constraints:";
        "";
        "$b \in \{0, 1\}$";
        "";
        "$-1000 \cdot b \le v \le 1000 \cdot b$";
        "";
        "To introduce the above constraints into a cobra model, we can rewrite them as follows";
        "";
        "$v \le b \cdot 1000 \Rightarrow v- 1000\cdot b \le 0$";
        "";
        "$-1000 \cdot b \le v \Rightarrow v + 1000\cdot b \ge 0$" ];
    Code 7
      [ "import cobra.test";
        "model = cobra.test.create_test_model(`textbook`)";
        "";
        "# an indicator for pgi";
        "pgi = model.reactions.get_by_id(`PGI`)";
        "# make a boolean variable";
        "pgi_indicator = Reaction(`indicator_PGI`)";
        "pgi_indicator.lower_bound = 0";
        "pgi_indicator.upper_bound = 1";
        "pgi_indicator.variable_kind = `integer`";
        "# create constraint for v - 1000 b <= 0";
        "pgi_plus = Metabolite(`PGI_plus`)";
        "pgi_plus._constraint_sense = `L`";
        "# create constraint for v + 1000 b >= 0";
        "pgi_minus = Metabolite(`PGI_minus`)";
        "pgi_minus._constraint_sense = `G`";
        "";
        "pgi_indicator.add_metabolites({pgi_plus: -1000, pgi_minus: 1000})";
        "pgi.add_metabolites({pgi_plus: 1, pgi_minus: 1})";
        "model.add_reaction(pgi_indicator)";
        "";
        "";
        "# an indicator for zwf";
        "zwf = model.reactions.get_by_id(`G6PDH2r`)";
        "zwf_indicator = Reaction(`indicator_ZWF`)";
        "zwf_indicator.lower_bound = 0";
        "zwf_indicator.upper_bound = 1";
        "zwf_indicator.variable_kind = `integer`";
        "# create constraint for v - 1000 b <= 0";
        "zwf_plus = Metabolite(`ZWF_plus`)";
        "zwf_plus._constraint_sense = `L`";
        "# create constraint for v + 1000 b >= 0";
        "zwf_minus = Metabolite(`ZWF_minus`)";
        "zwf_minus._constraint_sense = `G`";
        "";
        "zwf_indicator.add_metabolites({zwf_plus: -1000, zwf_minus: 1000})";
        "zwf.add_metabolites({zwf_plus: 1, zwf_minus: 1})";
        "";
        "# add the indicator reactions to the model";
        "model.add_reaction(zwf_indicator)" ]
      [];
    Markdown
      [ "In a model with both these reactions active, the indicators will also be active" ];
    Code 8
      [ "solution = model.optimize()";
        "print(`PGI indicator = %d` % solution.x_dict[`indicator_PGI`])";
        "print(`ZWF indicator = %d` % solution.x_dict[`indicator_ZWF`])";
        "print(`PGI flux = %.2f` % solution.x_dict[`PGI`])";
        "print(`ZWF flux = %.2f` % solution.x_dict[`G6PDH2r`])" ]
      [ Stream "stdout"
        [ "PGI indicator = 1";
          "ZWF indicator = 1";
          "PGI flux = 4.86";
          "ZWF flux = 4.96" ] ];
    Markdown
      [ "Because these boolean indicators are in the model, additional constraints can be applied on them. For example, we can prevent both reactions from being active at the same time by adding the following constraint:";
        "";
        "$b_\text{pgi} + b_\text{zwf} = 1$" ];
    Code 9
      [ "or_constraint = Metabolite(`or`)";
        "or_constraint._bound = 1";
        "zwf_indicator.add_metabolites({or_constraint: 1})";
        "pgi_indicator.add_metabolites({or_constraint: 1})";
        "";
        "solution = model.optimize()";
        "print(`PGI indicator = %d` % solution.x_dict[`indicator_PGI`])";
        "print(`ZWF indicator = %d` % solution.x_dict[`indicator_ZWF`])";
        "print(`PGI flux = %.2f` % solution.x_dict[`PGI`])";
        "print(`ZWF flux = %.2f` % solution.x_dict[`G6PDH2r`])" ]
      [ Stream "stdout"
        [ "PGI indicator = 1";
          "ZWF indicator = 0";
          "PGI flux = 9.82";
          "ZWF flux = 0.00" ] ] ].

(** [documentation_builder/loopless.ipynb], first document.  The
    [image/png] payload is abridged to its first base64 line. *)
Definition loopless : notebook :=
  [ Markdown
      [ "# Loopless FBA";
        "";
        "The goal of this procedure is identification of a thermodynamically consistent flux state without loops, as implied by the name.";
        "";
        "Usually, the model has the following constraints.";
        "$$ S \cdot v = 0 $$";
        "$$ lb \le v \le ub $$";
        "";
        "However, this will allow for thermodynamically infeasible loops (referred to as type 3 loops) to occur, where flux flows around a cycle without any net change of metabolites. For most cases, this is not a major issue, as solutions with these loops can usually be converted to equivalent solutions without them. However, if a flux state is desired which does not exhibit any of these loops, loopless FBA can be used. The formulation used here is modified from [Schellenberger et al.](http://dx.doi.org/10.1016/j.bpj.2010.12.3707)";
        "";
        "We can make the model irreversible, so that all reactions will satisfy";
        "$$ 0 \le lb \le v \le ub \le \max(ub) $$";
        "";
        "We will add in boolean indicators as well, such that";
        "$$ \max(ub) \cdot i \ge v $$";
        "$$ i \in \{0, 1\} $$";
        "";
        "We also want to ensure that an entry in the row space of S also exists with negative values wherever v is nonzero. In this expression, $1-i$ acts as a not to indicate inactivity of a reaction.";
        "";
        "$$ S^\mathsf T x - (1 - i) (\max(ub) + 1) \le -1 $$";
        "";
        "We will construct an LP integrating both constraints.";
        "";
        "$$ \left(";
        "\begin{matrix}";
        "S & 0 & 0\\";
        "-I & \max(ub)I & 0 \\";
        "0 & (\max(ub) + 1)I & S^\mathsf T";
        "\end{matrix}";
        "\right)";
        "\cdot";
        "\left(";
        "\begin{matrix}";
        "v \\";
        "i \\";
        "x";
        "\end{matrix}";
        "\right)";
        "\begin{matrix}";
        "&=& 0 \\";
        "&\ge& 0 \\";
        "&\le& \max(ub)";
        "\end{matrix}$$";
        "";
        "Note that these extra constraints are not applied to boundary reactions which bring metabolites in and out of the system." ];
    Code 1
      [ "from matplotlib.pylab import *";
        "%matplotlib inline";
        "";
        "import cobra.test";
        "from cobra import Reaction, Metabolite, Model";
        "from cobra.flux_analysis.loopless import construct_loopless_model";
        "from cobra.solvers import get_solver_name" ]
      [];
    Markdown
      [ "We will demonstrate with a toy model which has a simple loop cycling A -> B -> C -> A, with A allowed to enter the system and C allowed to leave. A graphical view of the system is drawn below:" ];
    Code 2
      [ "figure(figsize=(10.5, 4.5), frameon=False)";
        "gca().axis(`off`)";
        "xlim(0.5, 3.5)";
        "ylim(0.7, 2.2)";
        "arrow_params = {`head_length`: 0.08, `head_width`: 0.1, `ec`: `k`, `fc`: `k`}";
        "text_params = {`fontsize`: 25, `horizontalalignment`: `center`, `verticalalignment`: `center`}";
        "arrow(0.5, 1, 0.85, 0, **arrow_params)  # EX_A";
        "arrow(1.5, 1, 0.425, 0.736, **arrow_params)  # v1";
        "arrow(2.04, 1.82, 0.42, -0.72, **arrow_params)  # v2";
        "arrow(2.4, 1, -0.75, 0, **arrow_params)  # v3";
        "arrow(2.6, 1, 0.75, 0, **arrow_params)";
        "# reaction labels";
        "text(0.9, 1.15, `EX_A`, **text_params)";
        "text(1.6, 1.5, r`v$_1$`, **text_params)";
        "text(2.4, 1.5, r`v$_2$`, **text_params)";
        "text(2, 0.85, r`v$_3$`, **text_params)";
        "text(2.9, 1.15, `DM_C`, **text_params)";
        "# metabolite labels";
        "scatter(1.5, 1, s=250, color='#c994c7')";
        "text(1.5, 0.9, `A`, **text_params)";
        "scatter(2, 1.84, s=250, color='#c994c7')";
        "text(2, 1.95, `B`, **text_params)";
        "scatter(2.5, 1, s=250, color='#c994c7')";
        "text(2.5, 0.9, `C`, **text_params);" ]
      [ DisplayData
        [ ("image/png",
          [ "iVBORw0KGgoAAAANSUhEUgAAAnIAAAEcCAYAAABDOFkiAAAABHNCSVQICAgIfAhkiAAAAAlwSFlz" ]);
          ("text/plain",
          [ "<matplotlib.figure.Figure at 0x7f003ad8eb50>" ]) ] ];
    Code 3
      [ "test_model = Model()";
        "test_model.add_metabolites(Metabolite(`A`))";
        "test_model.add_metabolites(Metabolite(`B`))";
        "test_model.add_metabolites(Metabolite(`C`))";
        "EX_A = Reaction(`EX_A`)";
        "EX_A.add_metabolites({test_model.metabolites.A: 1})";
        "DM_C = Reaction(`DM_C`)";
        "DM_C.add_metabolites({test_model.metabolites.C: -1})";
        "v1 = Reaction(`v1`)";
        "v1.add_metabolites({test_model.metabolites.A: -1, test_model.metabolites.B: 1})";
        "v2 = Reaction(`v2`)";
        "v2.add_metabolites({test_model.metabolites.B: -1, test_model.metabolites.C: 1})";
        "v3 = Reaction(`v3`)";
        "v3.add_metabolites({test_model.metabolites.C: -1, test_model.metabolites.A: 1})";
        "DM_C.objective_coefficient = 1";
        "test_model.add_reactions([EX_A, DM_C, v1, v2, v3])" ]
      [];
    Markdown
      [ "While this model contains a loop, a flux state exists which has no flux through reaction v3, and is identified by loopless FBA." ];
    Code 4
      [ "construct_loopless_model(test_model).optimize()" ]
      [ ExecuteResult 4
        [ ("text/plain",
          [ "<Solution 1000.00 at 0x7f003ad82850>" ]) ] ];
    Markdown
      [ "However, if flux is forced through v3, then there is no longer a feasible loopless solution." ];
    Code 5
      [ "v3.lower_bound = 1";
        "construct_loopless_model(test_model).optimize()" ]
      [ ExecuteResult 5
        [ ("text/plain",
          [ "<Solution 'infeasible' at 0x7f003ad82f10>" ]) ] ];
    Markdown
      [ "Loopless FBA is also possible on genome scale models, but it requires a capable MILP solver." ];
    Code 6
      [ "salmonella = cobra.test.create_test_model(`salmonella`)";
        "construct_loopless_model(salmonella).optimize(solver=get_solver_name(mip=True))" ]
      [ ExecuteResult 6
        [ ("text/plain",
          [ "<Solution 0.38 at 0x7f003a496190>" ]) ] ];
    Code 7
      [ "ecoli = cobra.test.create_test_model(`ecoli`)";
        "construct_loopless_model(ecoli).optimize(solver=get_solver_name(mip=True))" ]
      [ ExecuteResult 7
        [ ("text/plain",
          [ "<Solution 0.98 at 0x7f003ae06b50>" ]) ] ] ].

(** [documentation_builder/loopless.ipynb], second document. *)
Definition faq : notebook :=
  [ Markdown
      [ "# FAQ" ];
    Markdown
      [ "This document will address frequently asked questions not addressed in other pages of the documentation." ];
    Markdown
      [ "### How do I install cobrapy?" ];
    Markdown
      [ "Please see the [INSTALL.md](https://github.com/opencobra/cobrapy/blob/master/INSTALL.md) file." ];
    Markdown
      [ "### How do I cite cobrapy?" ];
    Markdown
      [ "Please cite the 2013 publication: [10.1186/1752-0509-7-74](http://dx.doi.org/doi:10.1186/1752-0509-7-74)" ];
    Markdown
      [ "### How do I rename reactions or metabolites?" ];
    Markdown
      [ "TL;DR Use Model.repair afterwards";
        "";
        "When renaming metabolites or reactions, there are issues because cobra indexes based off of ID's, which can cause errors. For example:" ];
    Code 1
      [ "from __future__ import print_function";
        "import cobra.test";
        "model = cobra.test.create_test_model()";
        "";
        "for metabolite in model.metabolites:";
        "    metabolite.id = `test_` + metabolite.id";
        "";
        "try:";
        "    model.metabolites.get_by_id(model.metabolites[0].id)";
        "except KeyError as e:";
        "    print(repr(e))" ]
      [ Stream "stdout"
        [ "KeyError('test_dcaACP_c',)" ] ];
    Markdown
      [ "The Model.repair function will rebuild the necessary indexes" ];
    Code 2
      [ "model.repair()";
        "model.metabolites.get_by_id(model.metabolites[0].id)" ]
      [ ExecuteResult 2
        [ ("text/plain",
          [ "<Metabolite test_dcaACP_c at 0x688b450>" ]) ] ];
    Markdown
      [ "### How do I delete a gene?" ];
    Markdown
      [ "That depends on what precisely you mean by delete a gene.";
        "";
        "If you want to simulate the model with a gene knockout, use the cobra.maniupulation.delete_model_genes function. The effects of this function are reversed by cobra.manipulation.undelete_model_genes." ];
    Code 3
      [ "model = cobra.test.create_test_model()";
        "PGI = model.reactions.get_by_id(`PGI`)";
        "print(`bounds before knockout:`, (PGI.lower_bound, PGI.upper_bound))";
        "cobra.manipulation.delete_model_genes(model, [`STM4221`])";
        "print(`bounds after knockouts`, (PGI.lower_bound, PGI.upper_bound))" ]
      [ Stream "stdout"
        [ "bounds before knockout: (-1000.0, 1000.0)";
          "bounds after knockouts (0.0, 0.0)" ] ];
    Markdown
      [ "If you want to actually remove all traces of a gene from a model, this is more difficult because this will require changing all the gene_reaction_rule strings for reactions involving the gene." ];
    Markdown
      [ "### How do I change the reversibility of a Reaction?" ];
    Markdown
      [ "Reaction.reversibility is a property in cobra which is computed when it is requested from the lower and upper bounds." ];
    Code 4
      [ "model = cobra.test.create_test_model()";
        "model.reactions.get_by_id(`PGI`).reversibility" ]
      [ ExecuteResult 4
        [ ("text/plain",
          [ "True" ]) ] ];
    Markdown
      [ "Trying to set it directly will result in an error: " ];
    Code 5
      [ "try:";
        "    model.reactions.get_by_id(`PGI`).reversibility = False";
        "except Exception as e:";
        "    print(repr(e))" ]
      [ Stream "stdout"
        [ "AttributeError(`can't set attribute`,)" ] ];
    Markdown
      [ "The way to change the reversibility is to change the bounds to make the reaction irreversible." ];
    Code 6
      [ "model.reactions.get_by_id(`PGI`).lower_bound = 10";
        "model.reactions.get_by_id(`PGI`).reversibility" ]
      [ ExecuteResult 6
        [ ("text/plain",
          [ "False" ]) ] ];
    Markdown
      [ "### How do I generate an LP file from a COBRA model?" ];
    Markdown
      [ "While the cobrapy does not include python code to support this feature directly, many of the bundled solvers have this capability. Create the problem with one of these solvers, and use its appropriate function.";
        "";
        "Please note that unlike the LP file format, the MPS file format does not specify objective direction and is always a minimzation. Some (but not all) solvers will rewrite the maximization as a minimzation." ];
    Code 7
      [ "model = cobra.test.create_test_model()";
        "# glpk through cglpk";
        "glp = cobra.solvers.cglpk.create_problem(model)";
        "glp.write(`test.lp`)";
        "glp.write(`test.mps`)  # will not rewrite objective";
        "# gurobi";
        "gurobi_problem = cobra.solvers.gurobi_solver.create_problem(model)";
        "gurobi_problem.write(`test.lp`)";
        "gurobi_problem.write(`test.mps`)  # rewrites objective";
        "# cplex";
        "cplex_problem = cobra.solvers.cplex_solver.create_problem(model)";
        "cplex_problem.write(`test.lp`)";
        "cplex_problem.write(`test.mps`)  # rewrites objective" ]
      [];
    Markdown
      [ "### How do I visualize my flux solutions?" ];
    Markdown
      [ "cobrapy works well with the [escher](https://escher.github.io/) package, which is well suited to this purpose. Consult the [escher documentation](https://escher.readthedocs.org/en/latest/) for examples." ] ].

End Docs.

(** ** A reader for the Python of the code cells

    Enough of Python's lexical structure to find, in a code cell, the
    statements that bind names ([import], assignment, [for], [except ... as],
    [def], [class]), the calls, and the name each call starts from. *)

Module Py.
Import Text Nb.

Inductive token :=
| Id (s : string)
| Num (s : string)
| Str (s : string)
| Sym (c : ascii).

Definition is_digit (c : ascii) : bool :=
  let n := nat_of_ascii c in ((48 <=? n) && (n <=? 57))%nat.

Definition is_alpha (c : ascii) : bool :=
  let n := nat_of_ascii c in
  (((65 <=? n) && (n <=? 90)) || ((97 <=? n) && (n <=? 122)) || (n =? 95))%nat.

Definition is_word (c : ascii) : bool := is_alpha c || is_digit c.

Definition is_space (c : ascii) : bool :=
  let n := nat_of_ascii c in ((n =? 32) || (n =? 9))%nat.

Definition is_quote (c : ascii) : bool :=
  let n := nat_of_ascii c in ((n =? 34) || (n =? 39))%nat.

Definition is_hash (c : ascii) : bool := (nat_of_ascii c =? 35)%nat.

Inductive mode :=
| Plain
| Word (acc : string)
| Quoted (q : ascii) (acc : string).

Definition snoc (s : string) (c : ascii) : string := s ++ String c EmptyString.

Definition close_word (w : string) : token :=
  match w with
  | String c _ => if is_digit c then Num w else Id w
  | EmptyString => Id w
  end.

Definition flush (m : mode) : list token :=
  match m with
  | Plain => []
  | Word w => [close_word w]
  | Quoted _ w => [Str w]
  end.

Definition word_of (m : mode) : string :=
  match m with Word w => w | _ => EmptyString end.

(** One physical line to tokens; a [#] outside a string literal starts a
    comment that runs to the end of the line. *)
Fixpoint lex (m : mode) (s : string) : list token :=
  match s with
  | EmptyString => flush m
  | String c r =>
      match m with
      | Quoted q w =>
          if Ascii.eqb c q then Str w :: lex Plain r
          else lex (Quoted q (snoc w c)) r
      | _ =>
          if is_word c then lex (Word (snoc (word_of m) c)) r
          else flush m ++
               (if is_quote c then lex (Quoted c EmptyString) r
                else if is_hash c then []
                else if is_space c then lex Plain r
                else Sym c :: lex Plain r)
      end
  end.

Definition tokens (line : string) : list token := lex Plain line.

Definition sym_is (c : ascii) (t : token) : bool :=
  match t with Sym d => Ascii.eqb c d | _ => false end.

Definition id_is (s : string) (t : token) : bool :=
  match t with Id x => String.eqb s x | _ => false end.

Definition is_open (c : ascii) : bool :=
  Ascii.eqb c "("%char || Ascii.eqb c "["%char || Ascii.eqb c "{"%char.

Definition is_close (c : ascii) : bool :=
  Ascii.eqb c ")"%char || Ascii.eqb c "]"%char || Ascii.eqb c "}"%char.

Fixpoint depth (ts : list token) : Z :=
  match ts with
  | [] => 0%Z
  | Sym c :: r =>
      ((if is_open c then 1 else if is_close c then -1 else 0) + depth r)%Z
  | _ :: r => depth r
  end.

Definition backslash : ascii := "092"%char.

Definition ends_with_backslash (ts : list token) : bool :=
  match rev ts with
  | t :: _ => sym_is backslash t
  | [] => false
  end.

(** Physical lines joined into logical lines: a line goes on while a
    bracket is open or it ends in a backslash. *)
Fixpoint logical (pending : list token) (ls : list string) : list (list token) :=
  match ls with
  | [] => match pending with [] => [] | _ => [pending] end
  | l :: r =>
      let ts := (pending ++ tokens l)%list in
      if ends_with_backslash ts then logical (removelast ts) r
      else if (0 <? depth ts)%Z then logical ts r
      else match ts with
           | [] => logical [] r
           | _ => ts :: logical [] r
           end
  end.

Definition statements (c : cell) : list (list token) :=
  match cell_type_of c with
  | code => logical [] (source c)
  | markdown => []
  end.

Definition keywords : list string :=
  [ "and"; "as"; "assert"; "break"; "class"; "continue"; "def"; "del";
    "elif"; "else"; "except"; "finally"; "for"; "from"; "global"; "if";
    "import"; "in"; "is"; "lambda"; "not"; "or"; "pass"; "raise"; "return";
    "try"; "while"; "with"; "yield" ].

Definition builtins : list string :=
  [ "print"; "repr"; "KeyError"; "Exception"; "True"; "False"; "None" ].

(** *** Definitions: what a cell itself defines *)

Inductive definition :=
| DefFunction (f : string)
| DefClass (c : string)
| DefLambda.

Fixpoint definitions_in (ts : list token) : list definition :=
  match ts with
  | [] => []
  | Id k :: r =>
      (if String.eqb k "lambda" then [DefLambda] else
       match r with
       | Id f :: _ =>
           if String.eqb k "def" then [DefFunction f]
           else if String.eqb k "class" then [DefClass f]
           else []
       | _ => []
       end) ++ definitions_in r
  | _ :: r => definitions_in r
  end.

Definition definitions (nb : notebook) : list definition :=
  flat_map (fun c => flat_map definitions_in (statements c)) nb.

(** *** Calls *)

Record call := mkCall {
  root : option string;    (* the name the called expression starts from *)
  callee : string;         (* the name right before the parenthesis *)
  is_method : bool         (* [callee] is reached through a dot *)
}.

Definition pop (st : list (option string)) : option string * list (option string) :=
  match st with
  | [] => (None, [])
  | x :: r => (x, r)
  end.

(** [def f(] and [class C(] open a header, not a call. *)
Definition is_header (p : option token) : bool :=
  match p with
  | Some (Id k) => String.eqb k "def" || String.eqb k "class"
  | _ => false
  end.

(** [p2] and [p1] are the two tokens before the current one, [cur] the
    name the expression being read starts from, [st] what [cur] was at
    each bracket still open. *)
Fixpoint calls_in (p2 p1 : option token) (cur : option string)
         (st : list (option string)) (ts : list token) : list call :=
  match ts with
  | [] => []
  | t :: r =>
      match t with
      | Id x =>
          let cur' :=
            if mem x keywords then None
            else match p1 with
                 | Some (Sym c) =>
                     if Ascii.eqb c "."%char then cur else Some x
                 | _ => Some x
                 end in
          calls_in p1 (Some t) cur' st r
      | Num _ | Str _ => calls_in p1 (Some t) None st r
      | Sym c =>
          if is_open c then
            let found :=
              match p1 with
              | Some (Id f) =>
                  if Ascii.eqb c "("%char && negb (mem f keywords)
                     && negb (is_header p2) then
                    [ mkCall cur f
                        (match p2 with
                         | Some (Sym d) => Ascii.eqb d "."%char
                         | _ => false
                         end) ]
                  else []
              | _ => []
              end in
            (found ++ calls_in p1 (Some t) None (cur :: st) r)%list
          else if is_close c then
            let '(cur', st') := pop st in
            calls_in p1 (Some t) cur' st' r
          else if Ascii.eqb c "."%char then
            calls_in p1 (Some t) cur st r
          else calls_in p1 (Some t) None st r
      end
  end.

Definition calls_of (ts : list token) : list call :=
  calls_in None None None [] ts.

Definition cell_calls (c : cell) : list call :=
  flat_map calls_of (statements c).

Definition calls_method (m : string) (c : cell) : bool :=
  existsb (fun k => is_method k && String.eqb (callee k) m) (cell_calls c).

Definition calls_function (f : string) (c : cell) : bool :=
  existsb (fun k => negb (is_method k) && String.eqb (callee k) f) (cell_calls c).

Definition count_calls (f : string) (c : cell) : nat :=
  List.length (filter (fun k => String.eqb (callee k) f) (cell_calls c)).

(** *** Where a name comes from *)

Inductive origin :=
| External (package : string)   (* bound by an import of [package] *)
| Star (package : string)       (* left to [from package... import *] *)
| Builtin                       (* a Python builtin *)
| Literal                       (* a number, string, dict, list or tuple *)
| LocalDef                      (* bound by [def], [class] or [lambda] *)
| Unbound.

Definition env := list (string * origin).

Fixpoint lookup (x : string) (e : env) : option origin :=
  match e with
  | [] => None
  | (y, o) :: r => if String.eqb x y then Some o else lookup x r
  end.

(** The star imports are kept under the name [*]. *)
Definition resolve (e : env) (x : string) : origin :=
  match lookup x e with
  | Some o => o
  | None =>
      if mem x builtins then Builtin
      else match lookup "*" e with
           | Some (External p) => Star p
           | _ => Unbound
           end
  end.

Definition resolve_root (e : env) (r : option string) : origin :=
  match r with
  | Some x => resolve e x
  | None => Literal
  end.

Definition origin_of_expr (e : env) (ts : list token) : origin :=
  if existsb (id_is "lambda") ts then LocalDef
  else match ts with
       | Id x :: _ => resolve e x
       | _ => Literal
       end.

Fixpoint after_import (ts : list token) : list token :=
  match ts with
  | [] => []
  | Id k :: r => if String.eqb k "import" then r else after_import r
  | _ :: r => after_import r
  end.

Fixpoint split_in (ts : list token) : list token * list token :=
  match ts with
  | [] => ([], [])
  | Id k :: r =>
      if String.eqb k "in" then ([], r)
      else let '(a, b) := split_in r in (Id k :: a, b)
  | t :: r => let '(a, b) := split_in r in (t :: a, b)
  end.

Fixpoint names_of (ts : list token) : list string :=
  match ts with
  | [] => []
  | Id x :: r => x :: names_of r
  | Sym c :: r => if Ascii.eqb c "*"%char then "*" :: names_of r else names_of r
  | _ :: r => names_of r
  end.

Definition bind_all (xs : list string) (o : origin) (e : env) : env :=
  (map (fun x => (x, o)) xs ++ e)%list.

(** The names a statement binds, put in front of the environment. *)
Definition bind (e : env) (ts : list token) : env :=
  match ts with
  | Id k :: Id m :: r =>
      if String.eqb k "import" then (m, External m) :: e
      else if String.eqb k "from" then bind_all (names_of (after_import r)) (External m) e
      else if String.eqb k "def" || String.eqb k "class" then (m, LocalDef) :: e
      else if String.eqb k "for" then
        let '(targets, expr) := split_in (Id m :: r) in
        bind_all (names_of targets) (origin_of_expr e expr) e
      else if String.eqb k "except" then
        match r with
        | Id a :: Id x :: _ => if String.eqb a "as" then (x, Builtin) :: e else e
        | _ => e
        end
      else e
  | Id x :: Sym c :: r =>
      if Ascii.eqb c "="%char && negb (mem x keywords) then
        match r with
        | Sym d :: _ => if Ascii.eqb d "="%char then e else (x, origin_of_expr e r) :: e
        | _ => (x, origin_of_expr e r) :: e
        end
      else e
  | _ => e
  end.

(** The calls of a run of statements, each with the origin of the name it
    starts from, under the bindings made so far. *)
Fixpoint resolve_statements (e : env) (sts : list (list token)) : list (call * origin) * env :=
  match sts with
  | [] => ([], e)
  | ts :: r =>
      let here := map (fun k => (k, resolve_root e (root k))) (calls_of ts) in
      let '(rest, e') := resolve_statements (bind e ts) r in
      ((here ++ rest)%list, e')
  end.

Definition all_statements (nb : notebook) : list (list token) :=
  flat_map statements nb.

Definition resolved_calls (nb : notebook) : list (call * origin) :=
  fst (resolve_statements [] (all_statements nb)).

Definition final_env (nb : notebook) : env :=
  snd (resolve_statements [] (all_statements nb)).

Definition import_roots (nb : notebook) : list string :=
  flat_map (fun ts =>
              match ts with
              | Id k :: Id m :: _ =>
                  if String.eqb k "import" || String.eqb k "from" then [m] else []
              | _ => []
              end) (all_statements nb).

End Py.

(** ** Numbers and dictionaries as the cells write them *)

Module Values.
Import Text Nb Py.

Fixpoint digits (acc : Z) (s : string) : option Z :=
  match s with
  | EmptyString => Some acc
  | String c r =>
      if is_digit c
      then digits (10 * acc + (Z.of_nat (nat_of_ascii c) - 48))%Z r
      else None
  end.

(** The decimal [int.frac], in lowest terms. *)
Definition decimal (int frac : string) : option Q :=
  match digits 0 int, digits 0 frac with
  | Some a, Some b =>
      let scale := (10 ^ Z.of_nat (String.length frac))%Z in
      Some (Qred (Qmake (a * scale + b) (Z.to_pos scale)))
  | _, _ => None
  end.

(** The number literal a run of tokens starts with: [7], [7.] or [7.25]. *)
Definition number_at (ts : list token) : option Q :=
  match ts with
  | Num a :: Sym c :: Num b :: _ =>
      if Ascii.eqb c "."%char then decimal a b else decimal a EmptyString
  | Num a :: _ => decimal a EmptyString
  | _ => None
  end.

(** The [key: number] items among some tokens, in the order written. *)
Fixpoint items (ts : list token) : list (string * Q) :=
  match ts with
  | [] => []
  | Str k :: r =>
      match r with
      | Sym c :: r1 =>
          if Ascii.eqb c ":"%char then
            match number_at r1 with
            | Some q => (k, q) :: items r
            | None => items r
            end
          else items r
      | _ => items r
      end
  | _ :: r => items r
  end.

(** The dictionary an output shows (the repr of an [x_dict]). *)
Definition x_dict (o : output) : list (string * Q) :=
  items (flat_map tokens (shown o)).

(** [name = <number>] among some statements. *)
Fixpoint constant (x : string) (sts : list (list token)) : option Q :=
  match sts with
  | [] => None
  | (Id y :: Sym c :: r) :: rest =>
      if String.eqb x y && Ascii.eqb c "="%char then number_at r
      else constant x rest
  | _ :: rest => constant x rest
  end.

(** [obj.attr = <number>] among some statements. *)
Fixpoint attribute_constant (obj attr : string) (sts : list (list token)) : option Q :=
  match sts with
  | [] => None
  | (Id o :: Sym d :: Id a :: Sym c :: r) :: rest =>
      if String.eqb obj o && Ascii.eqb d "."%char && String.eqb attr a
         && Ascii.eqb c "="%char
      then number_at r
      else attribute_constant obj attr rest
  | _ :: rest => attribute_constant obj attr rest
  end.

(** [name = { ... }] among some statements. *)
Fixpoint dictionary (x : string) (sts : list (list token)) : option (list (string * Q)) :=
  match sts with
  | [] => None
  | (Id y :: Sym c :: Sym b :: r) :: rest =>
      if String.eqb x y && Ascii.eqb c "="%char && Ascii.eqb b "{"%char
      then Some (items r)
      else dictionary x rest
  | _ :: rest => dictionary x rest
  end.

(** The code cell executed as number [n], and its outputs. *)
Definition cell_at (nb : notebook) (n : nat) : option cell :=
  find (fun c => match execution_count c with
                 | Some k => Nat.eqb k n
                 | None => false
                 end) nb.

Definition outputs_at (nb : notebook) (n : nat) : list output :=
  match cell_at nb n with
  | Some c => outputs c
  | None => []
  end.

Definition x_dict_at (nb : notebook) (n : nat) : list (string * Q) :=
  flat_map x_dict (outputs_at nb n).

End Values.

(** ** Sections of a notebook *)

Module Outline.
Import Text Nb Py.

Definition is_heading (line : string) : bool := starts_with "#" line.

Definition opens_section (c : cell) : bool :=
  match cell_type_of c with
  | markdown => existsb is_heading (source c)
  | code => false
  end.

Definition headings (nb : notebook) : list string :=
  flat_map (fun c => filter is_heading (source c)) (markdown_cells nb).

(** The cells up to, not including, the next markdown cell with a heading. *)
Fixpoint until_heading (nb : notebook) : list cell :=
  match nb with
  | [] => []
  | c :: r => if opens_section c then [] else c :: until_heading r
  end.

(** The section under heading [h]: the cell holding [h] and what follows
    it up to the next heading cell. *)
Fixpoint section (h : string) (nb : notebook) : list cell :=
  match nb with
  | [] => []
  | c :: r =>
      match cell_type_of c with
      | markdown =>
          if mem h (source c) then c :: until_heading r else section h r
      | code => section h r
      end
  end.

Definition prose (cs : list cell) : list string :=
  flat_map source (markdown_cells cs).

Definition program (cs : list cell) : list string :=
  flat_map source (code_cells cs).

Definition section_calls (cs : list cell) : list string :=
  map callee (flat_map cell_calls cs).

(** [.attr = ...] occurs as an assignment in the statement. *)
Fixpoint assigns_attribute_in (attr : string) (ts : list token) : bool :=
  match ts with
  | [] => false
  | Sym d :: r =>
      match r with
      | Id a :: Sym c :: r2 =>
          (Ascii.eqb d "."%char && String.eqb a attr && Ascii.eqb c "="%char
           && match r2 with
              | Sym e :: _ => negb (Ascii.eqb e "="%char)
              | _ => true
              end)
          || assigns_attribute_in attr r
      | _ => assigns_attribute_in attr r
      end
  | _ :: r => assigns_attribute_in attr r
  end.

Definition assigns_attribute (attr : string) (c : cell) : bool :=
  existsb (assigns_attribute_in attr) (statements c).

(** A string literal of the cell's code. *)
Definition has_literal (s : string) (c : cell) : bool :=
  existsb (existsb (fun t => match t with Str x => String.eqb x s | _ => false end))
          (statements c).

(** A topic a notebook covers: the heading it sits under, phrases of its
    prose, and what its code calls, assigns and names. *)
Record topic := mkTopic {
  heading : string;
  in_prose : list string;
  called : list string;
  assigned : list string;
  literals : list string
}.

Definition demonstrates (nb : notebook) (t : topic) : bool :=
  let s := section (heading t) nb in
  mem (heading t) (headings nb)
  && forallb (fun p => mentions p (prose s)) (in_prose t)
  && forallb (fun f => mem f (section_calls s)) (called t)
  && forallb (fun a => existsb (assigns_attribute a) s) (assigned t)
  && forallb (fun l => existsb (has_literal l) s) (literals t).

End Outline.

(** ** What the outputs record *)

Module Captured.
Import Text Nb Py.

Definition repository : list notebook := [Docs.milp; Docs.loopless; Docs.faq].

(** A line that reports a Python exception. *)
Definition reports_exception (line : string) : bool :=
  contains "Error" line || contains "Exception" line || contains "Traceback" line.

Definition is_error_output (o : output) : bool :=
  match output_type_of o with
  | error => true
  | _ => existsb reports_exception (shown o)
  end.

(** The error examples of a notebook: execution count of the cell, and
    the lines shown. *)
Definition error_examples (nb : notebook) : list (option nat * list string) :=
  flat_map (fun c => map (fun o => (execution_count c, shown o))
                         (filter is_error_output (outputs c))) nb.

Definition is_stream (o : output) : bool :=
  match output_type_of o with stream => true | _ => false end.

Definition stream_outputs (nb : notebook) : list (option nat * output) :=
  flat_map (fun c => map (pair (execution_count c)) (filter is_stream (outputs c))) nb.

(** The PNG signature in base64. *)
Definition png_magic : string := "iVBORw0KGgo".

Definition is_rendered_image (o : output) : bool :=
  match output_type_of o with
  | display_data =>
      existsb (fun kv => String.eqb (fst kv) "image/png"
                         && existsb (starts_with png_magic) (snd kv)) (data o)
  | _ => false
  end.

Definition rendered_images (nb : notebook) : list (option nat) :=
  flat_map (fun c => map (fun _ => execution_count c)
                         (filter is_rendered_image (outputs c))) nb.

Definition calls_optimize (c : cell) : bool := calls_method "optimize" c.

(** An output that shows what the solver returned: the repr of a
    [Solution], the repr of an [x_dict], or printed indicator and flux
    values. *)
Definition reports_solver_result (o : output) : bool :=
  existsb (fun l => contains "<Solution " l || starts_with "{'" l
                    || contains "indicator = " l || contains "flux = " l)
          (shown o).

Definition cells_with_output (nb : notebook) : list cell :=
  filter (fun c => match outputs c with [] => false | _ => true end) nb.

(** The reading of "everything observable is produced by the solver":
    every cell that shows an output calls [optimize]. *)
Definition every_output_from_optimize : Prop :=
  Forall (fun nb => Forall (fun c => calls_optimize c = true)
                           (cells_with_output nb)) repository.

Definition external_packages : list string :=
  [ "__future__"; "cobra"; "IPython"; "matplotlib" ].

Definition to_lower (c : ascii) : ascii :=
  let n := nat_of_ascii c in
  if ((65 <=? n) && (n <=? 90))%nat then ascii_of_nat (n + 32) else c.

Fixpoint lower (s : string) : string :=
  match s with
  | EmptyString => EmptyString
  | String c r => String (to_lower c) (lower r)
  end.

(** The call has [w] in the name it calls or in the name it starts from,
    whatever the case. *)
Definition uses (w : string) (k : call) : bool :=
  contains w (lower (callee k))
  || match root k with
     | Some r => contains w (lower r)
     | None => false
     end.

Definition is_cobra (o : origin) : bool :=
  match o with
  | External p => String.eqb p "cobra"
  | _ => false
  end.

Definition origin_ok (o : origin) : bool :=
  match o with
  | External p | Star p => mem p ["cobra"; "IPython"; "matplotlib"]
  | Builtin | Literal => true
  | LocalDef | Unbound => false
  end.

End Captured.

(** ** The continuous-integration configuration, [.travis.yml] *)

Module Travis.
Import Text.

Record config := mkConfig {
  language : string;
  sudo : bool;
  cache_directories : list string;
  python : list string;
  apt_packages : list string;          (* addons / apt / packages *)
  env : list string;
  before_install : list string;
  install : list string;
  script : string;
  after_success : list string
}.

Definition travis_yml : config := {|
  language := "python";
  sudo := false;
  cache_directories := [ "$HOME/.cache/pip" ];
  python := [ "2.7"; "3.4"; "3.5" ];
  apt_packages :=
    [ "gfortran";
      "libatlas-dev";
      "libatlas-base-dev";
      "liblapack-dev";
      "libgmp-dev";
      "libglpk-dev";
      "libmpfr-dev" ];
  env := [ "PIP_CACHE_DIR=$HOME/.cache/pip" ];
  before_install :=
    [ "pip install pip --upgrade";
      "pip install numpy scipy python-libsbml -v";
      "pip install cython coveralls jsonschema six";
      "if [[ $TRAVIS_PYTHON_VERSION == 2* ]]; then pip install lxml glpk; fi";
      "wget https://opencobra.github.io/pypi_cobrapy_travis/esolver.gz";
      "gzip -d esolver.gz; chmod +x esolver; export PATH=$PATH:$PWD" ];
  install := [ "python setup.py develop" ];
  script := "coverage run --source=cobra setup.py test";
  after_success := [ "coveralls" ]
|}.

Definition has_package (stem : string) (c : config) : bool :=
  existsb (starts_with stem) (apt_packages c).

(** The commands that install dependencies with pip. *)
Definition dependency_installs (c : config) : list string :=
  filter (contains "pip install") (before_install c).

(** Position of the first command that satisfies [p]. *)
Fixpoint position (p : string -> bool) (l : list string) : option nat :=
  match l with
  | [] => None
  | x :: r => if p x then Some 0%nat else option_map S (position p r)
  end.

Definition fetches (binary : string) (cmd : string) : bool :=
  starts_with "wget " cmd && contains binary cmd.

Definition puts_on_path (binary : string) (cmd : string) : bool :=
  contains ("chmod +x " ++ binary) cmd && contains "export PATH=$PATH:$PWD" cmd.

(** A download of [binary] followed, later, by the command that makes it
    executable and extends the PATH with the working directory. *)
Definition fetch_step (binary : string) (c : config) : bool :=
  match position (fetches binary) (before_install c),
        position (puts_on_path binary) (before_install c) with
  | Some i, Some j => (i <? j)%nat
  | _, _ => false
  end.

Definition all_commands (c : config) : list string :=
  (before_install c ++ install c ++ [script c] ++ after_success c)%list.

Definition defines_shell_function (cmd : string) : bool :=
  starts_with "function " cmd || contains "()" cmd.

End Travis.

(** ** The ice-cream program ([milp.ipynb], cells 1 to 3) *)

Module IceCream.

Definition cone_selling_price : Q := 7.
Definition cone_production_cost : Q := 3.
Definition popsicle_selling_price : Q := 2.
Definition popsicle_production_cost : Q := 1.
Definition starting_budget : Q := 100.

(** [cone.objective_coefficient = cone_selling_price - cone_production_cost]
    and the same for popsicles. *)
Definition cone_objective_coefficient : Q :=
  cone_selling_price - cone_production_cost.
Definition popsicle_objective_coefficient : Q :=
  popsicle_selling_price - popsicle_production_cost.

(** The row of the metabolite [budget]: each reaction enters with its
    production cost, the sense is "L" and the bound [starting_budget]. *)
Definition spent (cone popsicle : Q) : Q :=
  cone_production_cost * cone + popsicle_production_cost * popsicle.

Definition profit (cone popsicle : Q) : Q :=
  cone_objective_coefficient * cone + popsicle_objective_coefficient * popsicle.

Definition within_budget (cone popsicle : Q) : bool :=
  Qle_bool 0 cone && Qle_bool 0 popsicle
  && Qle_bool (spent cone popsicle) starting_budget.

(** The same over the reals, for the continuous program. *)
Definition spentR (cone popsicle : R) : R :=
  (Q2R cone_production_cost * cone + Q2R popsicle_production_cost * popsicle)%R.

Definition profitR (cone popsicle : R) : R :=
  (Q2R cone_objective_coefficient * cone
   + Q2R popsicle_objective_coefficient * popsicle)%R.

Definition feasibleR (cone popsicle : R) : Prop :=
  (0 <= cone /\ 0 <= popsicle /\ spentR cone popsicle <= Q2R starting_budget)%R.

(** [(cone, popsicle)] is an optimum of the continuous program. *)
Definition continuous_optimum (cone popsicle : R) : Prop :=
  feasibleR cone popsicle /\
  forall c p : R, feasibleR c p -> (profitR c p <= profitR cone popsicle)%R.

(** With [variable_kind = "integer"] on both reactions. *)
Definition feasibleZ (cone popsicle : Z) : Prop :=
  within_budget (inject_Z cone) (inject_Z popsicle) = true.

Definition integer_optimum (cone popsicle : Z) : Prop :=
  feasibleZ cone popsicle /\
  forall c p : Z, feasibleZ c p ->
    profit (inject_Z c) (inject_Z p) <= profit (inject_Z cone) (inject_Z popsicle).

Definition value_of (x : string) (d : list (string * Q)) : Q :=
  match find (fun kv => String.eqb (fst kv) x) d with
  | Some kv => snd kv
  | None => 0
  end.

(** The outputs recorded for cells 2 (continuous) and 3 (integer). *)
Definition recorded_lp : list (string * Q) := Values.x_dict_at Docs.milp 2.
Definition recorded_ip : list (string * Q) := Values.x_dict_at Docs.milp 3.

(** The binary64 number nearest to 100/3, [4691249611844267 * 2^-47], and
    half a unit in its last place, [2^-48]. *)
Definition double_of_third : Q := 4691249611844267 # 140737488355328.
Definition half_ulp : Q := 1 # 281474976710656.

(** [x] rounds to the binary64 number [d]. *)
Definition rounds_to (x d : Q) : bool :=
  negb (Qle_bool half_ulp (Qabs (x - d))).

End IceCream.

(** ** The restaurant order ([milp.ipynb], cells 5 and 6) *)

Module Restaurant.

Definition costs : list (string * Q) :=
  [ ("mixed_fruit", 2.15); ("french_fries", 2.75); ("side_salad", 3.35);
    ("hot_wings", 3.55); ("mozarella_sticks", 4.20); ("sampler_plate", 5.80) ].

(** [total_cost._bound = 15.05], with the sense left at equality. *)
Definition total_cost_bound : Q := 15.05.

Definition dishes : list string := map fst costs.

(** An order gives each dish its count; every reaction has
    [variable_kind = "integer"]. *)
Definition order := string -> Z.

Definition total (v : order) : Q :=
  fold_right (fun ic acc => snd ic * inject_Z (v (fst ic)) + acc) 0 costs.

Definition nonnegative (v : order) : Prop :=
  forall d, In d dishes -> (0 <= v d)%Z.

Definition satisfies (v : order) : Prop :=
  nonnegative v /\ total v == total_cost_bound.

Definition agree (v w : order) : Prop :=
  forall d, In d dishes -> v d = w d.

(** An [x_dict] whose values are all whole, and the order it gives. *)
Definition whole (d : list (string * Q)) : bool :=
  forallb (fun kv => Pos.eqb (Qden (Qred (snd kv))) 1) d.

Definition order_of (d : list (string * Q)) : order :=
  fun x => Qnum (Qred (IceCream.value_of x d)).

(** The outputs recorded for cell 5 (minimize) and cell 6 (maximize). *)
Definition recorded_minimize : list (string * Q) := Values.x_dict_at Docs.milp 5.
Definition recorded_maximize : list (string * Q) := Values.x_dict_at Docs.milp 6.

(** The two assignments by name. *)
Definition wings_fruit_sampler : order :=
  fun d => if String.eqb d "hot_wings" then 2%Z
           else if String.eqb d "mixed_fruit" then 1%Z
           else if String.eqb d "sampler_plate" then 1%Z
           else 0%Z.

Definition seven_fruit : order :=
  fun d => if String.eqb d "mixed_fruit" then 7%Z else 0%Z.

(** The search space: no dish can be ordered more often than the bound
    allows on its own. *)
Definition upto (n : nat) : list Z := map Z.of_nat (seq 0 (S n)).

Definition cents (a b c d e f : Z) : Z :=
  (215 * a + 275 * b + 335 * c + 355 * d + 420 * e + 580 * f)%Z.

Definition pays (t : Z * Z * Z * Z * Z * Z) : bool :=
  let '(a, b, c, d, e, f) := t in (cents a b c d e f =? 1505)%Z.

(** Every tuple within the ranges that pays the bill, found dish by dish. *)
Definition solutions : list (Z * Z * Z * Z * Z * Z) :=
  flat_map (fun a =>
  flat_map (fun b =>
  flat_map (fun c =>
  flat_map (fun d =>
  flat_map (fun e =>
  flat_map (fun f =>
    if pays (a, b, c, d, e, f) then [ (a, b, c, d, e, f) ] else [])
  (upto 2)) (upto 3)) (upto 4)) (upto 4)) (upto 5)) (upto 7).

End Restaurant.

(** ** Boolean indicators ([milp.ipynb], cell 7) *)

Module Indicator.

Inductive sense := L | G | E.

(** A metabolite read as a constraint: the coefficient each reaction gives
    it, its [_constraint_sense] and its [_bound]. *)
Record constraint := mkConstraint {
  coefficients : list (string * Z);
  constraint_sense : sense;
  constraint_bound : Z
}.

(** [pgi_indicator.add_metabolites({pgi_plus: -1000, pgi_minus: 1000})] and
    [pgi.add_metabolites({pgi_plus: 1, pgi_minus: 1})]; the comments of the
    cell give the bound 0. *)
Definition PGI_plus : constraint :=
  mkConstraint [ ("PGI", 1%Z); ("indicator_PGI", (-1000)%Z) ] L 0.
Definition PGI_minus : constraint :=
  mkConstraint [ ("PGI", 1%Z); ("indicator_PGI", 1000%Z) ] G 0.

(** The same for [zwf = model.reactions.get_by_id("G6PDH2r")]. *)
Definition ZWF_plus : constraint :=
  mkConstraint [ ("G6PDH2r", 1%Z); ("indicator_ZWF", (-1000)%Z) ] L 0.
Definition ZWF_minus : constraint :=
  mkConstraint [ ("G6PDH2r", 1%Z); ("indicator_ZWF", 1000%Z) ] G 0.

Definition fluxes := string -> R.

Definition lhs (c : constraint) (x : fluxes) : R :=
  fold_right (fun rc acc => (IZR (snd rc) * x (fst rc) + acc)%R) 0%R
             (coefficients c).

Definition holds (c : constraint) (x : fluxes) : Prop :=
  match constraint_sense c with
  | L => (lhs c x <= IZR (constraint_bound c))%R
  | G => (lhs c x >= IZR (constraint_bound c))%R
  | E => (lhs c x = IZR (constraint_bound c))%R
  end.

(** The reaction flux [v] and the indicator [b] as a flux vector. *)
Definition assign (reaction indicator : string) (v : R) (b : Z) : fluxes :=
  fun r => if String.eqb r reaction then v
           else if String.eqb r indicator then IZR b
           else 0%R.

(** The constraints as the markdown states them ... *)
Definition stated (v : R) (b : Z) : Prop :=
  (-1000 * IZR b <= v /\ v <= 1000 * IZR b)%R.

(** ... and as it rewrites them. *)
Definition rewritten (v : R) (b : Z) : Prop :=
  (v - 1000 * IZR b <= 0 /\ v + 1000 * IZR b >= 0)%R.

(** [lower_bound = 0], [upper_bound = 1], [variable_kind = "integer"]. *)
Definition binary (b : Z) : Prop := (0 <= b <= 1)%Z.

End Indicator.

(** ** The topics of the notebooks *)

Module Topics.
Import Outline.

Definition ice_cream : topic :=
  mkTopic "## Ice Cream"
    [ "> **max** cone $\cdot$ cone_margin + popsicle $\cdot$ popsicle margin";
      "> cone $\cdot$ cone_cost + popsicle $\cdot$ popsicle_cost $\le$ budget" ]
    [ "Reaction"; "Metabolite"; "add_metabolites"; "Model"; "optimize" ]
    [ "_constraint_sense"; "_bound"; "objective_coefficient"; "variable_kind" ]
    [ "integer" ].

Definition restaurant_order : topic :=
  mkTopic "## Restaurant Order"
    [ "\cdot \vec v = 15.05$"; "$\vec v_i \ge 0$"; "$\vec v_i \in \mathbb{Z}$" ]
    [ "Metabolite"; "Reaction"; "add_metabolites"; "Model"; "optimize" ]
    [ "_bound"; "variable_kind"; "objective_coefficient" ]
    [ "integer"; "minimize"; "maximize" ].

Definition boolean_indicators : topic :=
  mkTopic "## Boolean Indicators"
    [ "$b \in \{0, 1\}$";
      "$-1000 \cdot b \le v \le 1000 \cdot b$";
      "$v \le b \cdot 1000 \Rightarrow v- 1000\cdot b \le 0$";
      "$-1000 \cdot b \le v \Rightarrow v + 1000\cdot b \ge 0$" ]
    [ "Reaction"; "Metabolite"; "add_metabolites"; "add_reaction"; "optimize" ]
    [ "lower_bound"; "upper_bound"; "variable_kind"; "_constraint_sense" ]
    [ "indicator_PGI"; "indicator_ZWF"; "integer" ].

Definition loopless_fba : topic :=
  mkTopic "# Loopless FBA"
    [ "$$ S \cdot v = 0 $$";
      "$$ \max(ub) \cdot i \ge v $$";
      "$$ i \in \{0, 1\} $$";
      "$$ S^\mathsf T x - (1 - i) (\max(ub) + 1) \le -1 $$" ]
    [ "construct_loopless_model"; "optimize" ]
    [ "lower_bound" ]
    [].

Definition renaming : topic :=
  mkTopic "### How do I rename reactions or metabolites?"
    [ "Use Model.repair afterwards" ]
    [ "get_by_id"; "repair" ]
    [ "id" ]
    [ "test_" ].

Definition gene_knockouts : topic :=
  mkTopic "### How do I delete a gene?"
    [ "cobra.maniupulation.delete_model_genes";
      "cobra.manipulation.undelete_model_genes" ]
    [ "delete_model_genes" ]
    []
    [ "STM4221" ].

Definition reversibility : topic :=
  mkTopic "### How do I change the reversibility of a Reaction?"
    [ "Reaction.reversibility is a property";
      "computed when it is requested from the lower and upper bounds";
      "change the bounds to make the reaction irreversible" ]
    [ "get_by_id" ]
    [ "reversibility"; "lower_bound" ]
    [ "PGI" ].

Definition lp_export : topic :=
  mkTopic "### How do I generate an LP file from a COBRA model?"
    [ "LP file format"; "MPS file format" ]
    [ "create_problem"; "write" ]
    []
    [ "test.lp"; "test.mps" ].

Definition visualization : topic :=
  mkTopic "### How do I visualize my flux solutions?"
    [ "[escher](https://escher.github.io/) package" ]
    []
    []
    [].

End Topics.

(** ** A sample cell, to try the reading of code cells on *)

Module Sample.
Import Nb.

(** A cell that did define a function would be seen, and the call to it
    would not count as going outside (nor would a call from a name that is
    bound nowhere, such as a parameter). *)
Definition cell_with_def : cell :=
  Code 1 [ "import cobra.test";
           "def solve(m):";
           "    return m.optimize()";
           "class Wrapper(object): pass";
           "double = lambda x: 2 * x";
           "solve(cobra.test.create_test_model())";
           "double(3)";
           "unknown(3)" ] [].

End Sample.

(** ** Rows and columns as the [add_metabolites] calls write them *)

Module Written.
Import Text Nb Py Values.

(** A number literal with an optional minus sign. *)
Definition signed_at (ts : list token) : option Q :=
  match ts with
  | Sym c :: r =>
      if Ascii.eqb c "-"%char then option_map Qopp (number_at r) else None
  | _ => number_at ts
  end.

(** A coefficient: a signed number, or a name some statement of [sts]
    binds to a number. *)
Definition value_at (sts : list (list token)) (ts : list token) : option Q :=
  match ts with
  | Id x :: _ => constant x sts
  | _ => signed_at ts
  end.

(** The [key: value] items of a dict display whose keys are names; the
    key is the last name before the colon ([test_model.metabolites.A]
    gives [A]). *)
Fixpoint terms_in (sts : list (list token)) (ts : list token) : list (string * Q) :=
  match ts with
  | [] => []
  | Id m :: r =>
      match r with
      | Sym c :: r1 =>
          if Ascii.eqb c ":"%char then
            match value_at sts r1 with
            | Some q => (m, q) :: terms_in sts r
            | None => terms_in sts r
            end
          else terms_in sts r
      | _ => terms_in sts r
      end
  | _ :: r => terms_in sts r
  end.

(** [r.add_metabolites({...})] statements, the call of a reaction (the
    call of a model takes no dict): the variable and the terms. *)
Definition added (sts : list (list token)) : list (string * list (string * Q)) :=
  flat_map (fun ts =>
    match ts with
    | Id r :: Sym d :: Id f :: Sym p :: Sym b :: rest =>
        if Ascii.eqb d "."%char && String.eqb f "add_metabolites"
           && Ascii.eqb p "("%char && Ascii.eqb b "{"%char
        then [ (r, terms_in sts rest) ] else []
    | _ => []
    end) sts.

Fixpoint first_literal (ts : list token) : option string :=
  match ts with
  | [] => None
  | Str s :: _ => Some s
  | _ :: r => first_literal r
  end.

(** The id a variable stands for: the string its constructor or lookup
    was given ([pgi = model.reactions.get_by_id("PGI")]); a name that is
    bound to no such call stands for itself. *)
Fixpoint id_of (x : string) (sts : list (list token)) : string :=
  match sts with
  | [] => x
  | (Id y :: Sym c :: rest) :: more =>
      if String.eqb x y && Ascii.eqb c "="%char then
        match first_literal rest with
        | Some s => s
        | None => id_of x more
        end
      else id_of x more
  | _ :: more => id_of x more
  end.

(** The columns: each reaction id with the metabolite ids it touches. *)
Definition columns (sts : list (list token)) : list (string * list (string * Q)) :=
  map (fun rt => (id_of (fst rt) sts,
                  map (fun t => (id_of (fst t) sts, snd t)) (snd rt)))
      (added sts).

(** The row of a metabolite: each reaction id with its coefficient. *)
Definition row (m : string) (sts : list (list token)) : list (string * Q) :=
  flat_map (fun rt =>
    map (fun t => (fst rt, snd t))
        (filter (fun t => String.eqb (fst t) m) (snd rt)))
    (columns sts).

(** [x.attr = "literal"] among some statements. *)
Fixpoint attribute_literal (x attr : string) (sts : list (list token)) : option string :=
  match sts with
  | [] => None
  | (Id o :: Sym d :: Id a :: Sym c :: Str s :: _) :: more =>
      if String.eqb x o && Ascii.eqb d "."%char && String.eqb attr a
         && Ascii.eqb c "="%char
      then Some s else attribute_literal x attr more
  | _ :: more => attribute_literal x attr more
  end.

Definition whole_terms (ts : list (string * Q)) : list (string * Z) :=
  map (fun t => (fst t, Qnum (Qred (snd t)))) ts.

End Written.

(** ** The toy network of the loopless notebook (cells 3 to 5) *)

Module Toy.

(** [test_model.add_metabolites(Metabolite("A"))], then B and C. *)
Definition metabolites : list string := [ "A"; "B"; "C" ].

(** The reactions in the order of [add_reactions([EX_A, DM_C, v1, v2, v3])],
    each with what its [add_metabolites] call gives it. *)
Definition stoichiometry : list (string * list (string * Z)) :=
  [ ("EX_A", [ ("A", 1%Z) ]);
    ("DM_C", [ ("C", (-1)%Z) ]);
    ("v1", [ ("A", (-1)%Z); ("B", 1%Z) ]);
    ("v2", [ ("B", (-1)%Z); ("C", 1%Z) ]);
    ("v3", [ ("C", (-1)%Z); ("A", 1%Z) ]) ].

Definition reactions : list string := map fst stoichiometry.

Definition coefficient (terms : list (string * Z)) (m : string) : Z :=
  fold_right (fun t acc => if String.eqb (fst t) m then (snd t + acc)%Z else acc)
             0%Z terms.

Definition terms_of (r : string) : list (string * Z) :=
  match find (fun rt => String.eqb (fst rt) r) stoichiometry with
  | Some rt => snd rt
  | None => []
  end.

(** A boundary reaction brings a metabolite in or out of the system: it
    touches one metabolite only.  The others are internal. *)
Definition is_boundary (terms : list (string * Z)) : bool :=
  (List.length terms =? 1)%nat.

Definition internal : list string :=
  map fst (filter (fun rt => negb (is_boundary (snd rt))) stoichiometry).

Definition fluxes := string -> R.

(** Row [m] of [S v]: what the fluxes make of metabolite [m]. *)
Definition production (v : fluxes) (m : string) : R :=
  fold_right (fun rt acc => (IZR (coefficient (snd rt) m) * v (fst rt) + acc)%R)
             0%R stoichiometry.

(** [S v = 0]. *)
Definition steady_state (v : fluxes) : Prop :=
  forall m, In m metabolites -> production v m = 0%R.

(** Entry [r] of [S^T x]. *)
Definition drop (x : string -> R) (r : string) : R :=
  fold_right (fun t acc => (IZR (snd t) * x (fst t) + acc)%R) 0%R (terms_of r).

Record bounds := mkBounds {
  lb : string -> R;
  ub : string -> R
}.

(** [0 <= lb <= v <= ub <= max(ub)], with [M] for [max(ub)]. *)
Definition irreversible (M : R) (b : bounds) (v : fluxes) : Prop :=
  forall r, In r reactions ->
    (0 <= lb b r /\ lb b r <= v r /\ v r <= ub b r /\ ub b r <= M)%R.

(** For the internal reactions: [i] in {0, 1}, [max(ub) i >= v] and
    [S^T x - (1 - i) (max(ub) + 1) <= -1]. *)
Definition indicated (M : R) (v : fluxes) (i : string -> Z) (x : string -> R) : Prop :=
  forall r, In r internal ->
    Indicator.binary (i r) /\
    (M * IZR (i r) >= v r)%R /\
    (drop x r - (1 - IZR (i r)) * (M + 1) <= -1)%R.

(** The second and third block rows of the matrix form:
    [-v + max(ub) i >= 0] and [(max(ub) + 1) i + S^T x <= max(ub)]. *)
Definition matrix_rows (M : R) (v : fluxes) (i : string -> Z) (x : string -> R) : Prop :=
  forall r, In r internal ->
    Indicator.binary (i r) /\
    (- v r + M * IZR (i r) >= 0)%R /\
    ((M + 1) * IZR (i r) + drop x r <= M)%R.

(** A flux state the loopless model admits. *)
Definition loopless (M : R) (b : bounds) (v : fluxes) : Prop :=
  steady_state v /\ irreversible M b v /\
  exists (i : string -> Z) (x : string -> R), indicated M v i x.

(** A flux state the plain model admits. *)
Definition feasible (M : R) (b : bounds) (v : fluxes) : Prop :=
  steady_state v /\ irreversible M b v.

(** [DM_C.objective_coefficient = 1]. *)
Definition objective (v : fluxes) : R := v "DM_C".

(** Every reaction between 0 and the same upper bound. *)
Definition uniform (M : R) : bounds := mkBounds (fun _ => 0%R) (fun _ => M).

(** [r.lower_bound = l], as cell 5 does with [v3.lower_bound = 1]. *)
Definition with_lower_bound (r : string) (l : R) (b : bounds) : bounds :=
  mkBounds (fun s => if String.eqb s r then l else lb b s) (ub b).

(** Flux [t] around the cycle A -> B -> C -> A and nowhere else. *)
Definition cycle (t : R) : fluxes :=
  fun r => if Text.mem r internal then t else 0%R.

Definition plus (v w : fluxes) : fluxes := fun r => (v r + w r)%R.

(** Flux [t] straight through: in at A, along v1 and v2, out at C. *)
Definition through (t : R) : fluxes :=
  fun r => if String.eqb r "v3" then 0%R else t.

(** What a [Solution] output shows: its objective value, if it has one. *)
Definition shown_objective (o : Nb.output) : option Q :=
  match flat_map Py.tokens (Nb.shown o) with
  | Py.Sym _ :: Py.Id s :: rest =>
      if String.eqb s "Solution" then Values.number_at rest else None
  | _ => None
  end.

End Toy.

(** ** The constraint on both indicators ([milp.ipynb], cell 9) *)

Module Exclusive.
Import Indicator.

(** [or_constraint = Metabolite("or")] with [_bound = 1] and the sense left
    at equality; both indicators enter with coefficient 1:
    [b_pgi + b_zwf = 1]. *)
Definition or_constraint : constraint :=
  mkConstraint [ ("indicator_ZWF", 1%Z); ("indicator_PGI", 1%Z) ] E 1.

(** The two fluxes and the two indicators as a flux vector. *)
Definition state (v_pgi v_zwf : R) (b_pgi b_zwf : Z) : fluxes :=
  fun r => if String.eqb r "PGI" then v_pgi
           else if String.eqb r "G6PDH2r" then v_zwf
           else if String.eqb r "indicator_PGI" then IZR b_pgi
           else if String.eqb r "indicator_ZWF" then IZR b_zwf
           else 0%R.

(** The four constraints of cell 7. *)
Definition indicators_hold (x : fluxes) : Prop :=
  holds PGI_plus x /\ holds PGI_minus x /\ holds ZWF_plus x /\ holds ZWF_minus x.

(** [label word = number] among printed lines, as in [PGI flux = 4.86]. *)
Fixpoint printed (label word : string) (lines : list string) : option Q :=
  match lines with
  | [] => None
  | l :: r =>
      match Py.tokens l with
      | Py.Id a :: Py.Id b :: Py.Sym c :: rest =>
          if String.eqb a label && String.eqb b word && Ascii.eqb c "="%char
          then Values.number_at rest else printed label word r
      | _ => printed label word r
      end
  end.

Definition printed_at (n : nat) (label word : string) : option Q :=
  printed label word (flat_map Nb.shown (Values.outputs_at Docs.milp n)).

(** The state a cell printed, when it printed all four values whole
    indicators included. *)
Definition recorded_state (n : nat) : option fluxes :=
  match printed_at n "PGI" "flux", printed_at n "ZWF" "flux",
        printed_at n "PGI" "indicator", printed_at n "ZWF" "indicator" with
  | Some vp, Some vz, Some bp, Some bz =>
      if Pos.eqb (Qden bp) 1 && Pos.eqb (Qden bz) 1
      then Some (state (Q2R vp) (Q2R vz) (Qnum bp) (Qnum bz))
      else None
  | _, _, _, _ => None
  end.

End Exclusive.

(** ** The ice-cream program at any budget *)

Module Budget.

(** [IceCream.within_budget] with the budget left open. *)
Definition within (budget cone popsicle : Q) : bool :=
  Qle_bool 0 cone && Qle_bool 0 popsicle
  && Qle_bool (IceCream.spent cone popsicle) budget.

Definition affordable (budget cone popsicle : Z) : Prop :=
  within (inject_Z budget) (inject_Z cone) (inject_Z popsicle) = true.




End Budget.

(** ** The restaurant order and its objective *)

Module Menu.
Import Restaurant.

(** [m.reactions.mixed_fruit.objective_coefficient = 1]. *)
Definition objective (v : order) : Z := v "mixed_fruit".

(** What [optimize(objective_sense="minimize")] and
    [optimize(objective_sense="maximize")] look for. *)
Definition minimizes (v : order) : Prop :=
  satisfies v /\ forall w, satisfies w -> (objective v <= objective w)%Z.

Definition maximizes (v : order) : Prop :=
  satisfies v /\ forall w, satisfies w -> (objective w <= objective v)%Z.

(** The same constraint without [variable_kind = "integer"]. *)
Definition portions := string -> Q.

Definition totalQ (w : portions) : Q :=
  fold_right (fun ic acc => snd ic * w (fst ic) + acc) 0 costs.

Definition relaxed (w : portions) : Prop :=
  (forall d, In d dishes -> 0 <= w d) /\ totalQ w == total_cost_bound.

(** [t] portions of mixed fruit and the rest of the bill in french fries. *)
Definition fruit_and_fries (t : Q) : portions :=
  fun d => if String.eqb d "mixed_fruit" then t
           else if String.eqb d "french_fries"
                then (total_cost_bound - 2.15 * t) / 2.75
                else 0.

End Menu.

(** ** Running a notebook from top to bottom *)

Module Run.
Import Text Nb Py.

Definition starts_with_literal (ts : list token) : bool :=
  match ts with Str _ :: _ => true | _ => false end.

(** [name=] inside brackets, not [name==]: a keyword argument. *)
Definition starts_with_assign (ts : list token) : bool :=
  match ts with
  | Sym c :: Sym d :: _ => Ascii.eqb c "="%char && negb (Ascii.eqb d "="%char)
  | Sym c :: _ => Ascii.eqb c "="%char
  | _ => false
  end.

(** The names an expression reads: the identifiers that are no keyword,
    no attribute (after a dot), no string prefix (before a literal) and no
    keyword argument. *)
Fixpoint reads_in (depth : nat) (p1 : option token) (ts : list token) : list string :=
  match ts with
  | [] => []
  | Id x :: r =>
      let attribute := match p1 with
                       | Some (Sym c) => Ascii.eqb c "."%char
                       | _ => false
                       end in
      let keyword_argument := negb (depth =? 0)%nat && starts_with_assign r in
      ((if negb (mem x keywords) && negb attribute
           && negb (starts_with_literal r) && negb keyword_argument
        then [ x ] else [])
       ++ reads_in depth (Some (Id x)) r)%list
  | Sym c :: r =>
      reads_in (if is_open c then S depth
                else if is_close c then Nat.pred depth else depth)
               (Some (Sym c)) r
  | t :: r => reads_in depth (Some t) r
  end.

(** The names a statement reads.  An import reads none, nor does an
    IPython magic or the header of a [def] or a [class]; the target of a plain assignment and the targets of a
    [for] are written, not read. *)
Definition reads (ts : list token) : list string :=
  match ts with
  | Id k :: rest =>
      if String.eqb k "import" || String.eqb k "from" then []
      else if String.eqb k "def" || String.eqb k "class" then []
      else if String.eqb k "for" then reads_in 0 None (snd (split_in rest))
      else if String.eqb k "except" then
        match rest with
        | Id e :: _ => [ e ]
        | _ => []
        end
      else if starts_with_assign rest && negb (mem k keywords)
           then reads_in 0 None (tl rest)
           else reads_in 0 None ts
  | Sym c :: _ => if Ascii.eqb c "%"%char then [] else reads_in 0 None ts
  | _ => reads_in 0 None ts
  end.

(** The reads of a run of statements with the origin each name has when
    it is read. *)
Fixpoint resolved_reads (e : env) (sts : list (list token)) : list (string * origin) :=
  match sts with
  | [] => []
  | ts :: r =>
      (map (fun x => (x, resolve e x)) (reads ts)
       ++ resolved_reads (bind e ts) r)%list
  end.

Definition unbound_reads (nb : notebook) : list string :=
  map fst (filter (fun xo => match snd xo with Unbound => true | _ => false end)
                  (resolved_reads [] (all_statements nb))).

Definition star_reads (nb : notebook) : list string :=
  nodup string_dec
    (map fst (filter (fun xo => match snd xo with Star _ => true | _ => false end)
                     (resolved_reads [] (all_statements nb)))).

(** The code cells are numbered 1, 2, ... in the order of the document. *)
Definition count_eqb (a b : option nat) : bool :=
  match a, b with
  | Some x, Some y => Nat.eqb x y
  | None, None => true
  | _, _ => false
  end.

Fixpoint counts_from (n : nat) (cs : list cell) : bool :=
  match cs with
  | [] => true
  | c :: r => count_eqb (execution_count c) (Some n) && counts_from (S n) r
  end.

Definition numbered (nb : notebook) : bool := counts_from 1 (code_cells nb).

(** Every result carries the execution count of its cell; the other
    outputs carry none. *)
Definition results_counted (c : cell) : bool :=
  forallb (fun o => match output_type_of o with
                    | execute_result => count_eqb (result_count o) (execution_count c)
                    | _ => count_eqb (result_count o) None
                    end) (outputs c).

(** A markdown cell is not executed and shows nothing. *)
Definition prose_inert (c : cell) : bool :=
  match cell_type_of c with
  | markdown => count_eqb (execution_count c) None
                && match outputs c with [] => true | _ => false end
  | code => true
  end.

End Run.

(** ** The figure of the loopless notebook (cell 2) *)

Module Figure.
Import Text Nb Py.

(** The arguments of a call, split at the commas outside brackets, up to
    the closing parenthesis. *)
Fixpoint args_in (depth : nat) (cur : list token) (ts : list token) : list (list token) :=
  match ts with
  | [] => [ rev cur ]
  | Sym c :: r =>
      if is_open c then args_in (S depth) (Sym c :: cur) r
      else if is_close c then
        match depth with
        | O => [ rev cur ]
        | S d => args_in d (Sym c :: cur) r
        end
      else if Ascii.eqb c ","%char && (depth =? 0)%nat then rev cur :: args_in 0 [] r
      else args_in depth (Sym c :: cur) r
  | t :: r => args_in depth (t :: cur) r
  end.

(** The argument lists of the statements that call [f]. *)
Definition calls_to (f : string) (sts : list (list token)) : list (list (list token)) :=
  flat_map (fun ts =>
    match ts with
    | Id g :: Sym c :: r =>
        if String.eqb g f && Ascii.eqb c "("%char then [ args_in 0 [] r ] else []
    | _ => []
    end) sts.

Definition cell_2 : list (list token) :=
  match Values.cell_at Docs.loopless 2 with
  | Some c => statements c
  | None => []
  end.

Definition number_arg (n : nat) (args : list (list token)) : option Q :=
  Written.signed_at (nth n args []).

(** The string an argument gives, raw prefix or not. *)
Definition literal_arg (n : nat) (args : list (list token)) : option string :=
  match nth n args [] with
  | [ Str s ] => Some s
  | [ Id _; Str s ] => Some s
  | _ => None
  end.

(** A label without its TeX: [v$_1$] reads [v1]. *)
Fixpoint plain (after_dollar : bool) (s : string) : string :=
  match s with
  | EmptyString => EmptyString
  | String c r =>
      if Ascii.eqb c "$"%char then plain true r
      else if after_dollar && Ascii.eqb c "_"%char then plain false r
      else String c (plain false r)
  end.

(** The labels [text(x, y, label, ...)] puts on the figure. *)
Definition labels : list string :=
  flat_map (fun args => match literal_arg 2 args with
                        | Some s => [ plain false s ]
                        | None => []
                        end) (calls_to "text" cell_2).

Definition arrows : nat := List.length (calls_to "arrow" cell_2).
Definition dots : nat := List.length (calls_to "scatter" cell_2).

End Figure.

(** ** The jobs of the CI matrix *)

Module Job.
Import Text Travis.

Definition drop_prefix (p s : string) : option string :=
  if prefix p s
  then Some (substring (String.length p) (String.length s - String.length p) s)
  else None.

(** [s] cut at the first occurrence of [sep]. *)
Definition split_on (sep s : string) : option (string * string) :=
  match index 0 sep s with
  | Some n =>
      Some (substring 0 n s,
            substring (n + String.length sep)
                      (String.length s - n - String.length sep) s)
  | None => None
  end.

Fixpoint last_char (s : string) : option ascii :=
  match s with
  | EmptyString => None
  | String c EmptyString => Some c
  | String _ r => last_char r
  end.

(** The match of [[[ $x == pattern ]]] for the patterns of the file: a
    trailing star stands for any rest. *)
Definition glob (pattern s : string) : bool :=
  match last_char pattern with
  | Some c =>
      if Ascii.eqb c "*"%char
      then prefix (substring 0 (String.length pattern - 1) pattern) s
      else String.eqb pattern s
  | None => String.eqb pattern s
  end.

(** [if [[ $TRAVIS_PYTHON_VERSION == pattern ]]; then body; fi]. *)
Definition conditional (cmd : string) : option (string * string) :=
  match drop_prefix "if [[ $TRAVIS_PYTHON_VERSION == " cmd with
  | Some rest =>
      match split_on " ]]; then " rest with
      | Some (pattern, rest') =>
          match split_on "; fi" rest' with
          | Some (body, _) => Some (pattern, body)
          | None => None
          end
      | None => None
      end
  | None => None
  end.

(** What a command runs under a Python version. *)
Definition run_for (version cmd : string) : list string :=
  match conditional cmd with
  | Some (pattern, body) => if glob pattern version then [ body ] else []
  | None => [ cmd ]
  end.

(** The commands of the job for a version, up to the tests. *)
Definition job (c : config) (version : string) : list string :=
  (flat_map (run_for version) (before_install c) ++ install c ++ [ script c ])%list.

(** The value the [env] entries give a variable. *)
Fixpoint setting (x : string) (entries : list string) : option string :=
  match entries with
  | [] => None
  | e :: r =>
      match drop_prefix (x ++ "=") e with
      | Some v => Some v
      | None => setting x r
      end
  end.

End Job.

(** ** The loopless constraints on any network *)

Module Network.

(** The internal reactions of a model, each with the terms its
    [add_metabolites] calls gave it. *)
Definition network := list (string * list (string * Z)).

Definition sum {A : Type} (f : A -> R) (l : list A) : R :=
  fold_right (fun a acc => (f a + acc)%R) 0%R l.

(** Entry [r] of [S^T x], from the terms of [r]. *)
Definition drop (terms : list (string * Z)) (x : string -> R) : R :=
  sum (fun t => (IZR (snd t) * x (fst t))%R) terms.

(** Row [m] of [S w]. *)
Definition production (net : network) (w : string -> R) (m : string) : R :=
  sum (fun rt => (IZR (Toy.coefficient (snd rt) m) * w (fst rt))%R) net.

(** Every metabolite a reaction touches is one of [mets]. *)
Definition closed (net : network) (mets : list string) : bool :=
  forallb (fun rt => forallb (fun t => Text.mem (fst t) mets) (snd rt)) net.

(** A cycle: nonnegative weights on the reactions, not all zero, that
    change no metabolite. *)
Definition cycle (net : network) (mets : list string) (w : string -> R) : Prop :=
  (forall rt, In rt net -> (0 <= w (fst rt))%R) /\
  (forall m, In m mets -> production net w m = 0%R) /\
  (exists rt, In rt net /\ (0 < w (fst rt))%R).

(** The loopless constraints of the notebook on every reaction of [net]. *)
Definition indicated (net : network) (M : R) (v : string -> R)
           (i : string -> Z) (x : string -> R) : Prop :=
  forall rt, In rt net ->
    Indicator.binary (i (fst rt)) /\
    (M * IZR (i (fst rt)) >= v (fst rt))%R /\
    (drop (snd rt) x - (1 - IZR (i (fst rt))) * (M + 1) <= -1)%R.

(** The internal reactions of the toy network. *)
Definition toy : network :=
  filter (fun rt => negb (Toy.is_boundary (snd rt))) Toy.stoichiometry.

End Network.
(** * Properties *)

(** ** Shared lemmas *)

(** A closed fact about the transcribed files, settled by evaluation. *)
Ltac by_evaluation := vm_compute; reflexivity.

(** One goal for each of the six dishes. *)
Ltac each_dish Hd :=
  unfold Restaurant.dishes, Restaurant.costs in Hd; simpl in Hd;
  destruct Hd as [<-|[<-|[<-|[<-|[<-|[<-|[]]]]]]].

Lemma forallb_Forall (A : Type) (f : A -> bool) (l : list A) :
  forallb f l = true -> Forall (fun x => f x = true) l.
Proof.
  induction l as [|x l IH]; simpl; intro H.
  - constructor.
  - apply andb_true_iff in H. destruct H as [Hx Hl].
    constructor; [exact Hx | exact (IH Hl)].
Qed.

(** The constants of the programs are the ones the code cells write. *)
Lemma ice_cream_constants_as_written :
  let sts := Py.all_statements Docs.milp in
  Values.constant "cone_selling_price" sts = Some IceCream.cone_selling_price /\
  Values.constant "cone_production_cost" sts = Some IceCream.cone_production_cost /\
  Values.constant "popsicle_selling_price" sts = Some IceCream.popsicle_selling_price /\
  Values.constant "popsicle_production_cost" sts = Some IceCream.popsicle_production_cost /\
  Values.constant "starting_budget" sts = Some IceCream.starting_budget.
Proof. vm_compute. repeat split; reflexivity. Qed.

Lemma restaurant_constants_as_written :
  let sts := Py.all_statements Docs.milp in
  Values.dictionary "costs" sts
    = Some (map (fun kv => (fst kv, Qred (snd kv))) Restaurant.costs) /\
  Values.attribute_constant "total_cost" "_bound" sts
    = Some (Qred Restaurant.total_cost_bound).
Proof. vm_compute. split; reflexivity. Qed.

Module RestaurantFacts.
Import Restaurant.

Lemma upto_In (n : nat) (z : Z) :
  (0 <= z <= Z.of_nat n)%Z -> In z (upto n).
Proof.
  intro H. unfold upto. apply in_map_iff.
  exists (Z.to_nat z). split.
  - apply Z2Nat.id. lia.
  - apply in_seq. lia.
Qed.

Lemma total_cents (v : order) :
  total v == total_cost_bound <->
  cents (v "mixed_fruit") (v "french_fries") (v "side_salad")
        (v "hot_wings") (v "mozarella_sticks") (v "sampler_plate") = 1505%Z.
Proof.
  unfold total, costs, total_cost_bound, cents. cbn [fold_right fst snd].
  unfold Qeq. cbn. lia.
Qed.

Lemma nonnegative_dishes (v : order) :
  nonnegative v ->
  (0 <= v "mixed_fruit" /\ 0 <= v "french_fries" /\ 0 <= v "side_salad" /\
   0 <= v "hot_wings" /\ 0 <= v "mozarella_sticks" /\ 0 <= v "sampler_plate")%Z.
Proof.
  intro H. repeat split; apply H; unfold dishes, costs; simpl; tauto.
Qed.

Lemma solutions_listed :
  solutions = [ (1, 0, 0, 2, 0, 1)%Z; (7, 0, 0, 0, 0, 0)%Z ].
Proof. by_evaluation. Qed.

(** Every nonnegative tuple that pays the bill lies within the ranges,
    hence among the solutions. *)
Lemma pays_in_solutions (a b c d e f : Z) :
  (0 <= a)%Z -> (0 <= b)%Z -> (0 <= c)%Z -> (0 <= d)%Z -> (0 <= e)%Z -> (0 <= f)%Z ->
  cents a b c d e f = 1505%Z ->
  In (a, b, c, d, e, f) solutions.
Proof.
  intros Ha Hb Hc Hd He Hf H.
  assert (Hp : pays (a, b, c, d, e, f) = true)
    by (unfold pays; apply Z.eqb_eq; exact H).
  unfold cents in H. unfold solutions.
  apply in_flat_map. exists a. split; [apply upto_In; simpl; lia|].
  apply in_flat_map. exists b. split; [apply upto_In; simpl; lia|].
  apply in_flat_map. exists c. split; [apply upto_In; simpl; lia|].
  apply in_flat_map. exists d. split; [apply upto_In; simpl; lia|].
  apply in_flat_map. exists e. split; [apply upto_In; simpl; lia|].
  apply in_flat_map. exists f. split; [apply upto_In; simpl; lia|].
  rewrite Hp. left. reflexivity.
Qed.

Lemma agree_of_values (v w : order) :
  v "mixed_fruit" = w "mixed_fruit" ->
  v "french_fries" = w "french_fries" ->
  v "side_salad" = w "side_salad" ->
  v "hot_wings" = w "hot_wings" ->
  v "mozarella_sticks" = w "mozarella_sticks" ->
  v "sampler_plate" = w "sampler_plate" ->
  agree v w.
Proof.
  intros H1 H2 H3 H4 H5 H6 d Hd. each_dish Hd; assumption.
Qed.

Lemma only_two (v : order) :
  satisfies v -> agree v wings_fruit_sampler \/ agree v seven_fruit.
Proof.
  intros [Hpos Htot].
  apply total_cents in Htot.
  destruct (nonnegative_dishes v Hpos) as (Ha & Hb & Hc & Hd & He & Hf).
  pose proof (pays_in_solutions _ _ _ _ _ _ Ha Hb Hc Hd He Hf Htot) as Hin.
  rewrite solutions_listed in Hin. simpl in Hin.
  destruct Hin as [E|[E|[]]]; inversion E as [[E1 E2 E3 E4 E5 E6]].
  - left. apply agree_of_values; symmetry; assumption.
  - right. apply agree_of_values; symmetry; assumption.
Qed.

Lemma satisfies_wings_fruit_sampler : satisfies wings_fruit_sampler.
Proof.
  split.
  - intros d Hd. each_dish Hd; vm_compute; discriminate.
  - apply total_cents. by_evaluation.
Qed.

Lemma satisfies_seven_fruit : satisfies seven_fruit.
Proof.
  split.
  - intros d Hd. each_dish Hd; vm_compute; discriminate.
  - apply total_cents. by_evaluation.
Qed.

Lemma recorded_orders :
  whole recorded_minimize = true /\ whole recorded_maximize = true /\
  map fst recorded_minimize = map fst recorded_maximize /\
  (forall d, In d dishes -> In d (map fst recorded_minimize)) /\
  agree (order_of recorded_minimize) wings_fruit_sampler /\
  agree (order_of recorded_maximize) seven_fruit.
Proof.
  split; [by_evaluation|].
  split; [by_evaluation|].
  split; [by_evaluation|].
  split.
  - intros d Hd. each_dish Hd; vm_compute; tauto.
  - split; apply agree_of_values; by_evaluation.
Qed.

End RestaurantFacts.

(** ** The reader on small inputs *)

Module ReaderExamples.
Import Text Nb Py Captured Sample.

Example tokens_of_a_call :
  tokens (py "m.optimize(objective_sense=`minimize`).x_dict  # solve") =
  [ Id "m"; Sym "."; Id "optimize"; Sym "("; Id "objective_sense"; Sym "=";
    Str "minimize"; Sym ")"; Sym "."; Id "x_dict" ].
Proof. by_evaluation. Qed.

Example call_on_a_call_result :
  calls_of (tokens "construct_loopless_model(test_model).optimize()") =
  [ mkCall (Some "construct_loopless_model") "construct_loopless_model" false;
    mkCall (Some "construct_loopless_model") "optimize" true ].
Proof. by_evaluation. Qed.

Example definitions_are_seen :
  definitions [ cell_with_def ] =
  [ DefFunction "solve"; DefClass "Wrapper"; DefLambda ].
Proof. by_evaluation. Qed.

Example local_calls_are_seen :
  map (fun ko => (callee (fst ko), snd ko, origin_ok (snd ko)))
      (resolved_calls [ cell_with_def ]) =
  [ ("optimize", Unbound, false);
    ("solve", LocalDef, false);
    ("create_test_model", External "cobra", true);
    ("double", LocalDef, false);
    ("unknown", Unbound, false) ].
Proof. by_evaluation. Qed.

Example decimal_literals :
  map Values.number_at [ tokens "7."; tokens "15.05"; tokens "33.0"; tokens "x" ] =
  [ Some 7; Some (301 # 20); Some 33; None ].
Proof. by_evaluation. Qed.

End ReaderExamples.

Module IceCreamFacts.
Import IceCream.

Lemma feasibleR_unfold (c p : R) :
  feasibleR c p <-> (0 <= c /\ 0 <= p /\ 3 * c + p <= 100)%R.
Proof.
  unfold feasibleR, spentR, cone_production_cost, popsicle_production_cost,
    starting_budget, Q2R. simpl.
  split; intros (H1 & H2 & H3); repeat split; lra.
Qed.

Lemma profitR_unfold (c p : R) : profitR c p = (4 * c + p)%R.
Proof.
  unfold profitR, cone_objective_coefficient, popsicle_objective_coefficient,
    cone_selling_price, cone_production_cost, popsicle_selling_price,
    popsicle_production_cost, Q2R. simpl. lra.
Qed.

Lemma continuous_bound (c p : R) :
  feasibleR c p -> (profitR c p <= 400 / 3 - p / 3)%R.
Proof.
  intro H. apply feasibleR_unfold in H. rewrite profitR_unfold. lra.
Qed.

Lemma continuous_optimum_third : continuous_optimum (100 / 3) 0.
Proof.
  split.
  - apply feasibleR_unfold. lra.
  - intros c p H. pose proof (continuous_bound c p H) as Hb.
    apply feasibleR_unfold in H. rewrite !profitR_unfold in *. lra.
Qed.

Lemma continuous_optimum_unique (c p : R) :
  continuous_optimum c p -> c = (100 / 3)%R /\ p = 0%R.
Proof.
  intros [Hf Hmax].
  pose proof (continuous_bound c p Hf) as Hb.
  assert (Hthird : feasibleR (100 / 3) 0) by (apply feasibleR_unfold; lra).
  specialize (Hmax _ _ Hthird).
  apply feasibleR_unfold in Hf. rewrite !profitR_unfold in *.
  split; lra.
Qed.

Lemma feasibleZ_unfold (c p : Z) :
  feasibleZ c p <-> (0 <= c /\ 0 <= p /\ 3 * c + p <= 100)%Z.
Proof.
  unfold feasibleZ, within_budget, spent, cone_production_cost,
    popsicle_production_cost, starting_budget.
  rewrite !andb_true_iff, !Qle_bool_iff.
  unfold Qle, Qplus, Qmult, inject_Z. cbn -[Z.mul Z.add]. lia.
Qed.

Lemma profit_unfold (c p : Z) :
  profit (inject_Z c) (inject_Z p) == inject_Z (4 * c + p).
Proof.
  unfold profit, cone_objective_coefficient, popsicle_objective_coefficient,
    cone_selling_price, cone_production_cost, popsicle_selling_price,
    popsicle_production_cost.
  unfold Qeq, Qminus, Qopp, Qplus, Qmult, inject_Z. cbn -[Z.mul Z.add]. lia.
Qed.

Lemma integer_bound (c p : Z) :
  feasibleZ c p -> (4 * c + p <= 133)%Z.
Proof. intro H. apply feasibleZ_unfold in H. lia. Qed.

Lemma integer_optimum_33_1 : integer_optimum 33 1.
Proof.
  split.
  - by_evaluation.
  - intros c p H. rewrite !profit_unfold.
    rewrite <- Zle_Qle. pose proof (integer_bound c p H). lia.
Qed.

Lemma integer_optimum_unique (c p : Z) :
  integer_optimum c p -> c = 33%Z /\ p = 1%Z.
Proof.
  intros [Hf Hmax].
  assert (H33 : feasibleZ 33 1) by (by_evaluation).
  specialize (Hmax _ _ H33). rewrite !profit_unfold in Hmax.
  rewrite <- Zle_Qle in Hmax.
  apply feasibleZ_unfold in Hf. lia.
Qed.

End IceCreamFacts.

Module IndicatorFacts.
Import Indicator.

Lemma stated_rewritten (v : R) (b : Z) : stated v b <-> rewritten v b.
Proof. unfold stated, rewritten. split; intros [H1 H2]; split; lra. Qed.

Lemma rewritten_holds (reaction indicator : string) (v : R) (b : Z) :
  String.eqb indicator reaction = false ->
  rewritten v b <->
  holds (mkConstraint [ (reaction, 1%Z); (indicator, (-1000)%Z) ] L 0)
        (assign reaction indicator v b) /\
  holds (mkConstraint [ (reaction, 1%Z); (indicator, 1000%Z) ] G 0)
        (assign reaction indicator v b).
Proof.
  intro Hne. unfold rewritten, holds, lhs, assign. simpl.
  rewrite String.eqb_refl, Hne, String.eqb_refl.
  split; intros [H1 H2]; split; lra.
Qed.

Lemma binary_cases (b : Z) : binary b -> b = 0%Z \/ b = 1%Z.
Proof. unfold binary. lia. Qed.

End IndicatorFacts.

Lemma Forall_forallb (A : Type) (f : A -> bool) (l : list A) :
  Forall (fun x => f x = true) l -> forallb f l = true.
Proof.
  induction 1 as [|x l Hx _ IH]; simpl.
  - reflexivity.
  - rewrite Hx, IH. reflexivity.
Qed.

Module DocFacts.
Import Text Nb Py Docs Values Outline Captured.

Lemma on_repository (P : notebook -> Prop) :
  P milp -> P loopless -> P faq -> Forall P repository.
Proof.
  intros H1 H2 H3. unfold repository.
  apply Forall_cons; [exact H1|].
  apply Forall_cons; [exact H2|].
  apply Forall_cons; [exact H3|].
  apply Forall_nil.
Qed.

(** The code cells stand in the order they were executed. *)
Lemma cells_in_execution_order :
  map (fun nb => map execution_count (code_cells nb)) repository =
  [ map Some (seq 1 9); map Some (seq 1 7); map Some (seq 1 7) ].
Proof. by_evaluation. Qed.

(** No code cell holds a [def], a [class] or a [lambda]. *)
Lemma no_definitions :
  Forall (fun nb => definitions nb = []) repository.
Proof.
  apply on_repository; by_evaluation.
Qed.

(** Every call starts from an imported name, a name left to the star
    import, a builtin, or a literal. *)
Lemma calls_resolve_outside :
  Forall (fun nb => Forall (fun ko => origin_ok (snd ko) = true)
                           (resolved_calls nb)) repository.
Proof.
  apply on_repository; apply forallb_Forall; by_evaluation.
Qed.

Lemma outputs_match_optimize :
  Forall (fun nb =>
    Forall (fun c =>
      Forall (fun o => reports_solver_result o = calls_optimize c) (outputs c))
      nb) repository.
Proof.
  assert (H : forall nb,
    forallb (fun c => forallb (fun o =>
      Bool.eqb (reports_solver_result o) (calls_optimize c)) (outputs c)) nb = true ->
    Forall (fun c =>
      Forall (fun o => reports_solver_result o = calls_optimize c) (outputs c)) nb).
  { intros nb Hb. apply Forall_forall. intros c Hc. apply Forall_forall. intros o Ho.
    rewrite forallb_forall in Hb. specialize (Hb c Hc).
    rewrite forallb_forall in Hb. specialize (Hb o Ho).
    apply Bool.eqb_prop. exact Hb. }
  apply on_repository; apply H; by_evaluation.
Qed.

End DocFacts.

(** ** The claims *)

Section Claims.
Import Text Nb Py Docs Values Outline Captured.

(** C1. No implementation source is defined in the repository: no code cell
    of the three notebook documents defines a function, a class or a lambda;
    every call in the code cells starts from a name imported from cobra,
    IPython or matplotlib (or from a Python builtin or a literal), every
    call that uses a model, a reaction or optimize starts from a name
    bound through cobra, the only packages imported are __future__, cobra,
    IPython and matplotlib, and no command of the CI configuration defines
    a shell function. *)
Theorem C1_no_implementation_source :
  Forall (fun nb => definitions nb = []) repository /\
  Forall (fun nb => Forall (fun ko => origin_ok (snd ko) = true)
                           (resolved_calls nb)) repository /\
  Forall (fun nb =>
    Forall (fun ko =>
      implb (uses "model" (fst ko) || uses "reaction" (fst ko)
             || uses "optimize" (fst ko))
            (is_cobra (snd ko)) = true)
      (resolved_calls nb)) repository /\
  map (fun nb =>
    List.length (filter (fun ko => uses "model" (fst ko) || uses "reaction" (fst ko)
                                   || uses "optimize" (fst ko))
                        (resolved_calls nb))) repository = [20; 20; 13]%nat /\
  Forall (fun nb => Forall (fun m => mem m external_packages = true)
                           (import_roots nb)) repository /\
  Forall (fun cmd => Travis.defines_shell_function cmd = false)
         (Travis.all_commands Travis.travis_yml).
Proof.
  split; [exact DocFacts.no_definitions|].
  split; [exact DocFacts.calls_resolve_outside|].
  split.
  { apply DocFacts.on_repository; apply forallb_Forall; by_evaluation. }
  split; [by_evaluation|].
  split.
  { apply DocFacts.on_repository; apply forallb_Forall; by_evaluation. }
  assert (H : forallb (fun cmd => negb (Travis.defines_shell_function cmd))
                      (Travis.all_commands Travis.travis_yml) = true)
    by (by_evaluation).
  apply forallb_Forall in H.
  eapply Forall_impl; [|exact H].
  intros cmd Hc. simpl in Hc. apply negb_true_iff. exact Hc.
Qed.

(** C2. The CI configuration specifies the interpreter matrix 2.7, 3.4 and
    3.5; system packages among which libatlas, liblapack, libglpk and
    libgmp; a sequence of pip installs of dependencies; a step that fetches
    the esolver binary and later makes it executable and puts its directory
    on the PATH; the test invocation; and the coveralls step after
    success. *)
Theorem C2_ci_configuration :
  let c := Travis.travis_yml in
  Travis.python c = [ "2.7"; "3.4"; "3.5" ] /\
  Forall (fun stem => Travis.has_package stem c = true)
         [ "libatlas"; "liblapack"; "libglpk"; "libgmp" ] /\
  List.length (Travis.apt_packages c) = 7%nat /\
  Travis.dependency_installs c =
    [ "pip install pip --upgrade";
      "pip install numpy scipy python-libsbml -v";
      "pip install cython coveralls jsonschema six";
      "if [[ $TRAVIS_PYTHON_VERSION == 2* ]]; then pip install lxml glpk; fi" ] /\
  Travis.install c = [ "python setup.py develop" ] /\
  Travis.fetch_step "esolver" c = true /\
  Travis.position (Travis.fetches "esolver") (Travis.before_install c) = Some 4%nat /\
  Travis.position (Travis.puts_on_path "esolver") (Travis.before_install c) = Some 5%nat /\
  Travis.script c = "coverage run --source=cobra setup.py test" /\
  contains "setup.py test" (Travis.script c) = true /\
  Travis.after_success c = [ "coveralls" ].
Proof.
  cbv zeta.
  repeat match goal with |- _ /\ _ => split end;
    try (by_evaluation).
  repeat (apply Forall_cons || apply Forall_nil); by_evaluation.
Qed.

(** C3. The error examples captured in the notebooks are exactly two: the
    KeyError printed by cell 1 of the FAQ, which renames the metabolite
    ids and looks one up by its new id without a repair before it, and the
    AttributeError printed by cell 5 of the FAQ, which assigns to the
    property reversibility.  No output is a traceback, the other two
    documents show no error (the infeasible Solution of the loopless
    notebook is the value optimize returned, not an exception), and the
    calls of both cells go to cobra or to builtins. *)
Theorem C3_error_examples :
  error_examples milp = [] /\
  error_examples loopless = [] /\
  error_examples faq =
    [ (Some 1%nat, [ py "KeyError('test_dcaACP_c',)" ]);
      (Some 5%nat, [ py "AttributeError(`can't set attribute`,)" ]) ] /\
  Forall (fun nb =>
    Forall (fun c =>
      Forall (fun o => output_type_of o <> error) (outputs c)) nb) repository /\
  (exists c, cell_at loopless 5 = Some c /\
     map shown (outputs c) = [ [ "<Solution 'infeasible' at 0x7f003ad82f10>" ] ] /\
     map output_type_of (outputs c) = [ execute_result ] /\
     calls_optimize c = true) /\
  (exists c1, cell_at faq 1 = Some c1 /\
     assigns_attribute "id" c1 = true /\
     calls_method "get_by_id" c1 = true /\
     calls_method "repair" c1 = false /\
     mentions "except KeyError as e:" (source c1) = true) /\
  (exists c2, cell_at faq 2 = Some c2 /\
     calls_method "repair" c2 = true /\
     filter is_error_output (outputs c2) = []) /\
  (exists c5, cell_at faq 5 = Some c5 /\
     assigns_attribute "reversibility" c5 = true /\
     mentions "except Exception as e:" (source c5) = true) /\
  Forall (fun ko => origin_ok (snd ko) = true) (resolved_calls faq).
Proof.
  split; [by_evaluation|].
  split; [by_evaluation|].
  split; [by_evaluation|].
  split.
  { assert (H : forall nb,
      forallb (fun c => forallb (fun o =>
        match output_type_of o with error => false | _ => true end)
        (outputs c)) nb = true ->
      Forall (fun c => Forall (fun o => output_type_of o <> error) (outputs c)) nb).
    { intros nb Hb. apply Forall_forall. intros c Hc.
      apply Forall_forall. intros o Ho.
      rewrite forallb_forall in Hb. specialize (Hb c Hc).
      rewrite forallb_forall in Hb. specialize (Hb o Ho).
      intro E. rewrite E in Hb. discriminate. }
    apply DocFacts.on_repository; apply H; by_evaluation. }
  split.
  { eexists. split; [by_evaluation|].
    repeat split; by_evaluation. }
  split.
  { eexists. split; [by_evaluation|].
    repeat split; by_evaluation. }
  split.
  { eexists. split; [by_evaluation|].
    repeat split; by_evaluation. }
  split.
  { eexists. split; [by_evaluation|].
    repeat split; by_evaluation. }
  pose proof DocFacts.calls_resolve_outside as H.
  rewrite Forall_forall in H. apply H. unfold repository. simpl. tauto.
Qed.

(** C4. The notebooks formulate the four programs: under "Ice Cream",
    "Restaurant Order" and "Boolean Indicators" of the MILP notebook and
    under "Loopless FBA", the prose states the program and the code cells
    build and optimise it. *)
Theorem C4_programs_formulated :
  demonstrates milp Topics.ice_cream = true /\
  demonstrates milp Topics.restaurant_order = true /\
  demonstrates milp Topics.boolean_indicators = true /\
  demonstrates loopless Topics.loopless_fba = true /\
  Forall (fun t => code_cells (section (heading t) milp) <> [])
         [ Topics.ice_cream; Topics.restaurant_order; Topics.boolean_indicators ] /\
  code_cells (section (heading Topics.loopless_fba) loopless) <> [].
Proof.
  repeat match goal with |- _ /\ _ => split end;
    try (by_evaluation).
  - repeat (apply Forall_cons || apply Forall_nil); vm_compute; discriminate.
  - vm_compute; discriminate.
Qed.

(** C5. The FAQ demonstrates the five usage patterns: renaming followed
    by Model.repair, gene knockouts with delete_model_genes (and the
    mention of undelete_model_genes), the property reversibility and the
    change of bounds, the export of LP and MPS files through the solvers'
    problem objects, and the hand-off of visualization to escher, which
    has prose only. *)
Theorem C5_faq_patterns :
  demonstrates faq Topics.renaming = true /\
  demonstrates faq Topics.gene_knockouts = true /\
  demonstrates faq Topics.reversibility = true /\
  demonstrates faq Topics.lp_export = true /\
  demonstrates faq Topics.visualization = true /\
  code_cells (section (heading Topics.visualization) faq) = [] /\
  map (fun t => map execution_count (code_cells (section (heading t) faq)))
      [ Topics.renaming; Topics.gene_knockouts; Topics.reversibility;
        Topics.lp_export ]
  = [ [Some 1; Some 2]; [Some 3]; [Some 4; Some 5; Some 6]; [Some 7] ]%nat.
Proof.
  repeat match goal with |- _ /\ _ => split end; by_evaluation.
Qed.

(** C6. The captured output includes a rendered image (the PNG shown by
    cell 2 of the loopless notebook) and console output of solver results
    (the stdout streams of cells 8 and 9 of the MILP notebook, one line per
    print call of cells that call optimize), alongside narrative text,
    formulas and code cells. *)
Theorem C6_captured_output :
  map rendered_images repository = [ []; [Some 2%nat]; [] ] /\
  map (fun p => (fst p, stream_name (snd p), text (snd p))) (stream_outputs milp) =
    [ (Some 8%nat, Some "stdout",
       [ "PGI indicator = 1"; "ZWF indicator = 1";
         "PGI flux = 4.86"; "ZWF flux = 4.96" ]);
      (Some 9%nat, Some "stdout",
       [ "PGI indicator = 1"; "ZWF indicator = 0";
         "PGI flux = 9.82"; "ZWF flux = 0.00" ]) ] /\
  Forall (fun n => exists c, cell_at milp n = Some c /\
                             calls_optimize c = true /\
                             count_calls "print" c = 4%nat)
         [ 8%nat; 9%nat ] /\
  Forall (fun nb => markdown_cells nb <> [] /\ code_cells nb <> []) repository /\
  mentions "$" (prose milp) = true /\
  mentions "$$" (prose loopless) = true.
Proof.
  split; [by_evaluation|].
  split; [by_evaluation|].
  split.
  { repeat (apply Forall_cons || apply Forall_nil);
      (eexists; split; [by_evaluation|]; split; by_evaluation). }
  split.
  { apply DocFacts.on_repository; split; vm_compute; discriminate. }
  split; by_evaluation.
Qed.

(** C7, as stated, fails: cell 4 of the FAQ shows the value True of a
    read of reversibility and calls no optimize, so not every captured
    output derives from an optimize call. *)
Lemma C7_output_without_optimize :
  (exists c, cell_at faq 4 = Some c /\
             map shown (outputs c) = [ [ "True" ] ] /\
             calls_optimize c = false) /\
  ~ every_output_from_optimize.
Proof.
  split.
  - eexists. split; [by_evaluation|].
    split; by_evaluation.
  - intro H. unfold every_output_from_optimize in H.
    rewrite Forall_forall in H.
    assert (Hin : In faq repository) by (unfold repository; simpl; tauto).
    specialize (H faq Hin). apply Forall_forallb in H.
    vm_compute in H. discriminate.
Qed.

(** C7, amended.  An output shows a solver result (a Solution, an x_dict,
    printed indicator and flux values) exactly when its cell calls
    optimize: ten cells do, eight cells with output do not.  No output is
    produced by code defined in the repository: the code cells define
    nothing and every call goes outside. *)
Theorem C7_solver_results_from_optimize :
  Forall (fun nb =>
    Forall (fun c =>
      Forall (fun o => reports_solver_result o = calls_optimize c) (outputs c))
      nb) repository /\
  map (fun nb => List.length (filter calls_optimize (cells_with_output nb)))
      repository = [ 6; 4; 0 ]%nat /\
  map (fun nb => List.length (filter (fun c => negb (calls_optimize c))
                                     (cells_with_output nb)))
      repository = [ 1; 1; 6 ]%nat /\
  Forall (fun nb => definitions nb = []) repository /\
  Forall (fun nb => Forall (fun ko => origin_ok (snd ko) = true)
                           (resolved_calls nb)) repository.
Proof.
  split; [exact DocFacts.outputs_match_optimize|].
  split; [by_evaluation|].
  split; [by_evaluation|].
  split; [exact DocFacts.no_definitions | exact DocFacts.calls_resolve_outside].
Qed.

End Claims.

Section NumericClaims.

(** C8. Both recorded restaurant orders, two hot wings with one mixed
    fruit and one sampler plate (cell 5) and seven mixed fruit (cell 6),
    have whole, nonnegative counts and meet the equality
    2.15 mixed_fruit + 2.75 french_fries + 3.35 side_salad + 3.55 hot_wings
    + 4.20 mozarella_sticks + 5.80 sampler_plate = 15.05 exactly over the
    rationals, and every nonnegative whole order that meets it is one of
    the two. *)
Theorem C8_restaurant_orders :
  Restaurant.whole Restaurant.recorded_minimize = true /\
  Restaurant.whole Restaurant.recorded_maximize = true /\
  Restaurant.agree (Restaurant.order_of Restaurant.recorded_minimize)
                   Restaurant.wings_fruit_sampler /\
  Restaurant.agree (Restaurant.order_of Restaurant.recorded_maximize)
                   Restaurant.seven_fruit /\
  Restaurant.satisfies Restaurant.wings_fruit_sampler /\
  Restaurant.satisfies Restaurant.seven_fruit /\
  ~ Restaurant.agree Restaurant.wings_fruit_sampler Restaurant.seven_fruit /\
  forall v : Restaurant.order,
    Restaurant.satisfies v ->
    Restaurant.agree v Restaurant.wings_fruit_sampler \/
    Restaurant.agree v Restaurant.seven_fruit.
Proof.
  destruct RestaurantFacts.recorded_orders as (W1 & W2 & _ & _ & A1 & A2).
  repeat match goal with |- _ /\ _ => split end; try assumption.
  - exact RestaurantFacts.satisfies_wings_fruit_sampler.
  - exact RestaurantFacts.satisfies_seven_fruit.
  - intro H. specialize (H "mixed_fruit").
    assert (Hin : In "mixed_fruit" Restaurant.dishes)
      by (unfold Restaurant.dishes, Restaurant.costs; simpl; tauto).
    specialize (H Hin). vm_compute in H. discriminate.
  - exact RestaurantFacts.only_two.
Qed.

Lemma C8_restaurant_orders_witness :
  Restaurant.satisfies Restaurant.seven_fruit /\
  (Restaurant.agree Restaurant.seven_fruit Restaurant.wings_fruit_sampler \/
   Restaurant.agree Restaurant.seven_fruit Restaurant.seven_fruit).
Proof.
  assert (H : Restaurant.satisfies Restaurant.seven_fruit).
  { split.
    - intros d Hd. each_dish Hd; vm_compute; discriminate.
    - by_evaluation. }
  split.
  - exact H.
  - exact (proj2 (proj2 (proj2 (proj2 (proj2 (proj2 (proj2
             C8_restaurant_orders)))))) Restaurant.seven_fruit H).
Defined.

(** C9. For the ice-cream program (maximise 4 cone + popsicle subject to
    3 cone + popsicle <= 100, both nonnegative): over the reals the optimum
    is cone = 100/3, popsicle = 0, and only there, with profit 400/3; the
    recorded output of cell 2 is that point (its cone value rounds to the
    same binary64 number as 100/3, its popsicle value is 0); the recorded
    output of cell 3, cone = 33 and popsicle = 1, is feasible, spends
    exactly 100 and attains the maximum profit 133 over the nonnegative
    integers, which is below 400/3. *)
Theorem C9_ice_cream :
  IceCream.continuous_optimum (100 / 3) 0 /\
  (forall c p : R, IceCream.continuous_optimum c p -> c = (100 / 3)%R /\ p = 0%R) /\
  IceCream.profitR (100 / 3) 0 = (400 / 3)%R /\
  IceCream.rounds_to (IceCream.value_of "cone" IceCream.recorded_lp)
                     IceCream.double_of_third = true /\
  IceCream.rounds_to (100 # 3) IceCream.double_of_third = true /\
  IceCream.value_of "popsicle" IceCream.recorded_lp == 0 /\
  IceCream.value_of "cone" IceCream.recorded_ip == 33 /\
  IceCream.value_of "popsicle" IceCream.recorded_ip == 1 /\
  IceCream.integer_optimum 33 1 /\
  (forall c p : Z, IceCream.integer_optimum c p -> c = 33%Z /\ p = 1%Z) /\
  IceCream.spent 33 1 == 100 /\
  IceCream.profit 33 1 == 133 /\
  (Q2R (IceCream.profit 33 1) < IceCream.profitR (100 / 3) 0)%R.
Proof.
  split; [exact IceCreamFacts.continuous_optimum_third|].
  split; [exact IceCreamFacts.continuous_optimum_unique|].
  split; [rewrite IceCreamFacts.profitR_unfold; lra|].
  split; [by_evaluation|].
  split; [by_evaluation|].
  split; [by_evaluation|].
  split; [by_evaluation|].
  split; [by_evaluation|].
  split; [exact IceCreamFacts.integer_optimum_33_1|].
  split; [exact IceCreamFacts.integer_optimum_unique|].
  split; [by_evaluation|].
  split; [by_evaluation|].
  rewrite IceCreamFacts.profitR_unfold.
  unfold IceCream.profit, IceCream.cone_objective_coefficient,
    IceCream.popsicle_objective_coefficient, IceCream.cone_selling_price,
    IceCream.cone_production_cost, IceCream.popsicle_selling_price,
    IceCream.popsicle_production_cost, Q2R.
  simpl. lra.
Qed.

Lemma C9_ice_cream_witness :
  IceCream.feasibleR 10 20 /\
  (IceCream.profitR 10 20 <= IceCream.profitR (100 / 3) 0)%R.
Proof.
  assert (H : IceCream.feasibleR 10 20).
  { unfold IceCream.feasibleR, IceCream.spentR, IceCream.cone_production_cost,
      IceCream.popsicle_production_cost, IceCream.starting_budget, Q2R.
    simpl. lra. }
  split.
  - exact H.
  - exact (proj2 (proj1 C9_ice_cream) 10%R 20%R H).
Defined.

(** C10. The rewriting of the indicator constraints is an equivalence:
    for every real flux v and every b in {0, 1}, -1000 b <= v <= 1000 b
    holds if and only if v - 1000 b <= 0 and v + 1000 b >= 0 hold; the
    rewritten pair is what the metabolites PGI_plus and PGI_minus (and
    ZWF_plus and ZWF_minus) of the code cell say; and the constraints
    force v = 0 when b = 0 and leave -1000 <= v <= 1000 when b = 1. *)
Theorem C10_indicator_rewriting (v : R) (b : Z) :
  Indicator.binary b ->
  (Indicator.stated v b <-> Indicator.rewritten v b) /\
  (Indicator.rewritten v b <->
     Indicator.holds Indicator.PGI_plus
       (Indicator.assign "PGI" "indicator_PGI" v b) /\
     Indicator.holds Indicator.PGI_minus
       (Indicator.assign "PGI" "indicator_PGI" v b)) /\
  (Indicator.rewritten v b <->
     Indicator.holds Indicator.ZWF_plus
       (Indicator.assign "G6PDH2r" "indicator_ZWF" v b) /\
     Indicator.holds Indicator.ZWF_minus
       (Indicator.assign "G6PDH2r" "indicator_ZWF" v b)) /\
  (Indicator.stated v b <->
     if (b =? 0)%Z then v = 0%R else (-1000 <= v <= 1000)%R).
Proof.
  intro Hb.
  split; [apply IndicatorFacts.stated_rewritten|].
  split; [apply IndicatorFacts.rewritten_holds; reflexivity|].
  split; [apply IndicatorFacts.rewritten_holds; reflexivity|].
  destruct (IndicatorFacts.binary_cases b Hb) as [-> | ->];
    unfold Indicator.stated; simpl; split; intro H; try split; lra.
Qed.

Lemma C10_indicator_rewriting_witness :
  Indicator.binary 1 /\
  (Indicator.stated 5 1 <-> Indicator.rewritten 5 1).
Proof.
  assert (H : Indicator.binary 1) by (unfold Indicator.binary; lia).
  split.
  - exact H.
  - exact (proj1 (C10_indicator_rewriting 5%R 1%Z H)).
Defined.

End NumericClaims.

(** ** The toy network and the loopless constraints *)

Module ToyFacts.
Import Toy.

Lemma stoichiometry_as_written :
  map (fun rt => (fst rt, Written.whole_terms (snd rt)))
      (Written.columns (Py.all_statements Docs.loopless)) = stoichiometry /\
  internal = [ "v1"; "v2"; "v3" ].
Proof. split; by_evaluation. Qed.

Lemma production_A (v : fluxes) :
  production v "A" = (v "EX_A" - v "v1" + v "v3")%R.
Proof. unfold production. simpl. lra. Qed.

Lemma production_B (v : fluxes) :
  production v "B" = (v "v1" - v "v2")%R.
Proof. unfold production. simpl. lra. Qed.

Lemma production_C (v : fluxes) :
  production v "C" = (v "v2" - v "v3" - v "DM_C")%R.
Proof. unfold production. simpl. lra. Qed.

Lemma drop_v1 (x : string -> R) : drop x "v1" = (x "B" - x "A")%R.
Proof. unfold drop. simpl. lra. Qed.

Lemma drop_v2 (x : string -> R) : drop x "v2" = (x "C" - x "B")%R.
Proof. unfold drop. simpl. lra. Qed.

Lemma drop_v3 (x : string -> R) : drop x "v3" = (x "A" - x "C")%R.
Proof. unfold drop. simpl. lra. Qed.

Lemma steady_state_equations (v : fluxes) :
  steady_state v <->
  (v "v1" = v "v2" /\ v "v1" = v "EX_A" + v "v3" /\ v "DM_C" = v "EX_A")%R.
Proof.
  split.
  - intro H.
    pose proof (H "A" (or_introl eq_refl)) as HA.
    pose proof (H "B" (or_intror (or_introl eq_refl))) as HB.
    pose proof (H "C" (or_intror (or_intror (or_introl eq_refl)))) as HC.
    rewrite production_A in HA. rewrite production_B in HB.
    rewrite production_C in HC. repeat split; lra.
  - intros (H1 & H2 & H3) m Hm. simpl in Hm.
    destruct Hm as [<-|[<-|[<-|[]]]].
    + rewrite production_A. lra.
    + rewrite production_B. lra.
    + rewrite production_C. lra.
Qed.

Lemma in_reactions :
  In "EX_A" reactions /\ In "DM_C" reactions /\ In "v1" reactions /\
  In "v2" reactions /\ In "v3" reactions.
Proof. unfold reactions. simpl. tauto. Qed.

Lemma in_internal :
  In "v1" internal /\ In "v2" internal /\ In "v3" internal.
Proof. simpl. tauto. Qed.

(** An internal reaction that carries flux has its indicator at 1. *)
Lemma active_indicator (M : R) (v : fluxes) (i : string -> Z) (x : string -> R) (r : string) :
  indicated M v i x -> In r internal -> (0 < v r)%R -> i r = 1%Z.
Proof.
  intros H Hr Hv. destruct (H r Hr) as (Hb & Hi & _).
  destruct (IndicatorFacts.binary_cases _ Hb) as [E|E]; [|exact E].
  rewrite E in Hi. simpl in Hi. lra.
Qed.

(** The three indicators of the cycle cannot all be 1. *)
Lemma cycle_not_indicated (M : R) (v : fluxes) (i : string -> Z) (x : string -> R) :
  indicated M v i x -> ~ (i "v1" = 1%Z /\ i "v2" = 1%Z /\ i "v3" = 1%Z).
Proof.
  intros H (E1 & E2 & E3).
  destruct in_internal as (I1 & I2 & I3).
  destruct (H _ I1) as (_ & _ & D1).
  destruct (H _ I2) as (_ & _ & D2).
  destruct (H _ I3) as (_ & _ & D3).
  rewrite E1, drop_v1 in D1. rewrite E2, drop_v2 in D2.
  rewrite E3, drop_v3 in D3. simpl in D1, D2, D3. lra.
Qed.

Lemma through_loopless (M t : R) :
  (2 <= M)%R -> (0 <= t <= M)%R -> loopless M (uniform M) (through t).
Proof.
  intros HM Ht. split; [|split].
  - apply steady_state_equations. unfold through. simpl. repeat split; lra.
  - intros r Hr. unfold uniform, through. simpl.
    destruct (String.eqb r "v3"); repeat split; lra.
  - exists (fun r => if String.eqb r "v3" then 0%Z else 1%Z).
    exists (fun m => if String.eqb m "A" then 2%R
                     else if String.eqb m "B" then 1%R else 0%R).
    intros r Hr. simpl in Hr.
    destruct Hr as [<-|[<-|[<-|[]]]];
      (split; [unfold Indicator.binary; simpl; lia|]);
      unfold through, drop; simpl; split; lra.
Qed.

Lemma zero_loopless (M : R) :
  (0 <= M)%R -> loopless M (uniform M) (through 0).
Proof.
  intro HM. split; [|split].
  - apply steady_state_equations. unfold through. simpl. repeat split; lra.
  - intros r Hr. unfold uniform, through. simpl.
    destruct (String.eqb r "v3"); repeat split; lra.
  - exists (fun _ => 0%Z). exists (fun _ => 0%R).
    intros r Hr. simpl in Hr.
    destruct Hr as [<-|[<-|[<-|[]]]];
      (split; [unfold Indicator.binary; simpl; lia|]);
      unfold through, drop; simpl; split; lra.
Qed.

(** In a loopless state v3 is shut and the rest carries one flux. *)
Lemma loopless_shape (M : R) (b : bounds) (v : fluxes) :
  loopless M b v ->
  v "v3" = 0%R /\ v "v1" = v "EX_A" /\ v "v2" = v "EX_A" /\ v "DM_C" = v "EX_A".
Proof.
  intros (Hs & Hb & i & x & Hi).
  apply steady_state_equations in Hs. destruct Hs as (H1 & H2 & H3).
  destruct in_reactions as (RE & RD & R1 & R2 & R3).
  destruct in_internal as (I1 & I2 & I3).
  destruct (Hb _ RE) as (LE & VE & _). destruct (Hb _ R3) as (L3 & V3 & _).
  assert (Z3 : v "v3" = 0%R).
  { destruct (Rle_lt_or_eq_dec 0 (v "v3")) as [P3|E3]; [lra| |lra].
    exfalso. apply (cycle_not_indicated M v i x Hi).
    repeat split; eapply active_indicator; eauto; lra. }
  repeat split; lra.
Qed.

Lemma forced_infeasible (M l : R) (b : bounds) (v : fluxes) :
  (0 < l)%R -> ~ loopless M (with_lower_bound "v3" l b) v.
Proof.
  intros Hl H.
  destruct (loopless_shape _ _ _ H) as (Z3 & _).
  destruct H as (_ & Hb & _).
  destruct in_reactions as (_ & _ & _ & _ & R3).
  destruct (Hb _ R3) as (_ & V3 & _).
  unfold with_lower_bound in V3. simpl in V3. lra.
Qed.

End ToyFacts.

Section Loopless.
Import Toy.

(** X1. Mass balance of the toy network: S v = 0 holds exactly when v1 and
    v2 carry the same flux, that flux is what enters at EX_A plus what
    comes round through v3, and what leaves at DM_C is what enters at
    EX_A. *)
Theorem X1_toy_steady_state (v : fluxes) :
  steady_state v <->
  (v "v1" = v "v2" /\ v "v1" = v "EX_A" + v "v3" /\ v "DM_C" = v "EX_A")%R.
Proof. exact (ToyFacts.steady_state_equations v). Qed.

(** X2. The cycle is a loop without net change: any flux t around v1, v2
    and v3 is a steady state of its own, and adding it to a steady state
    gives a steady state with the same objective and the same exchange. *)
Theorem X2_cycle_without_net_change (v : fluxes) (t : R) :
  steady_state v ->
  steady_state (cycle t) /\
  steady_state (plus v (cycle t)) /\
  objective (plus v (cycle t)) = objective v /\
  plus v (cycle t) "EX_A" = v "EX_A" /\
  plus v (cycle t) "v3" = (v "v3" + t)%R.
Proof.
  intro H. apply ToyFacts.steady_state_equations in H.
  destruct H as (H1 & H2 & H3).
  split; [|split].
  - apply ToyFacts.steady_state_equations. unfold cycle. simpl. repeat split; lra.
  - apply ToyFacts.steady_state_equations. unfold plus, cycle. simpl.
    repeat split; lra.
  - unfold objective, plus, cycle. simpl. repeat split; lra.
Qed.

Lemma X2_cycle_without_net_change_witness :
  steady_state (through 5) /\
  steady_state (plus (through 5) (cycle 3)) /\
  objective (plus (through 5) (cycle 3)) = objective (through 5).
Proof.
  assert (H : steady_state (through 5)).
  { apply ToyFacts.steady_state_equations. unfold through. simpl. repeat split; lra. }
  split; [exact H|].
  split.
  - exact (proj1 (proj2 (X2_cycle_without_net_change (through 5) 3 H))).
  - exact (proj1 (proj2 (proj2 (X2_cycle_without_net_change (through 5) 3 H)))).
Defined.

(** X3. The loopless constraints shut the cycle: in every flux state the
    loopless model admits, whatever the bounds, v3 carries no flux, and
    v1, v2, EX_A and DM_C all carry the same flux. *)
Theorem X3_loopless_shuts_cycle (M : R) (b : bounds) (v : fluxes) :
  loopless M b v ->
  v "v3" = 0%R /\ v "v1" = v "EX_A" /\ v "v2" = v "EX_A" /\ v "DM_C" = v "EX_A".
Proof. exact (ToyFacts.loopless_shape M b v). Qed.

Lemma X3_loopless_shuts_cycle_witness :
  loopless 1000 (uniform 1000) (through 7) /\ through 7 "v3" = 0%R.
Proof.
  assert (H : loopless 1000 (uniform 1000) (through 7))
    by (apply ToyFacts.through_loopless; lra).
  split; [exact H|].
  exact (proj1 (X3_loopless_shuts_cycle 1000 (uniform 1000) (through 7) H)).
Defined.



(** X5. With a common upper bound of at least 2, every flux state of the
    plain model converts to a loopless one that is equivalent: taking the
    cycle flux out leaves a state the loopless model admits, with the same
    objective and the same exchange fluxes.  So the loopless optimum is
    the plain optimum, the upper bound itself. *)
Theorem X5_loops_convert (M : R) (v : fluxes) :
  (2 <= M)%R ->
  feasible M (uniform M) v ->
  loopless M (uniform M) (through (objective v)) /\
  objective (through (objective v)) = objective v /\
  through (objective v) "EX_A" = v "EX_A" /\
  (objective v <= M)%R /\
  loopless M (uniform M) (through M) /\ objective (through M) = M.
Proof.
  intros HM (Hs & Hb).
  apply ToyFacts.steady_state_equations in Hs. destruct Hs as (H1 & H2 & H3).
  destruct ToyFacts.in_reactions as (RE & RD & R1 & R2 & R3).
  destruct (Hb _ RD) as (_ & LD & UD & _). simpl in LD, UD.
  unfold objective in *.
  split; [apply ToyFacts.through_loopless; lra|].
  split; [reflexivity|].
  split; [unfold through; simpl; lra|].
  split; [lra|].
  split; [apply ToyFacts.through_loopless; lra | reflexivity].
Qed.

Lemma X5_loops_convert_witness :
  (2 <= 1000)%R /\
  feasible 1000 (uniform 1000) (plus (through 5) (cycle 3)) /\
  loopless 1000 (uniform 1000) (through (objective (plus (through 5) (cycle 3)))).
Proof.
  assert (HM : (2 <= 1000)%R) by lra.
  assert (H : feasible 1000 (uniform 1000) (plus (through 5) (cycle 3))).
  { split.
    - apply ToyFacts.steady_state_equations. unfold plus, through, cycle. simpl.
      repeat split; lra.
    - intros r Hr. unfold reactions in Hr. simpl in Hr.
      destruct Hr as [<-|[<-|[<-|[<-|[<-|[]]]]]];
        unfold uniform, plus, through, cycle; simpl; repeat split; lra. }
  split; [exact HM|]. split; [exact H|].
  exact (proj1 (X5_loops_convert 1000 (plus (through 5) (cycle 3)) HM H)).
Defined.

(** X6. Below an upper bound of 2 the big-M constraints leave the toy
    network nothing: when max(ub) is less than 2, the length of the path
    from A to C, the only flux state the loopless model admits is zero
    flux everywhere. *)
Theorem X6_small_bound_blocks_path (M : R) (b : bounds) (v : fluxes) :
  (M < 2)%R ->
  loopless M b v ->
  forall r, In r reactions -> v r = 0%R.
Proof.
  intros HM H.
  destruct (ToyFacts.loopless_shape _ _ _ H) as (Z3 & E1 & E2 & ED).
  destruct H as (_ & Hb & i & x & Hi).
  destruct ToyFacts.in_reactions as (RE & RD & R1 & R2 & R3).
  destruct ToyFacts.in_internal as (I1 & I2 & I3).
  destruct (Hb _ RE) as (LE & VE & _).
  assert (ZE : v "EX_A" = 0%R).
  { destruct (Rle_lt_or_eq_dec 0 (v "EX_A")) as [P|E]; [lra| |lra].
    exfalso.
    assert (A1 : i "v1" = 1%Z)
      by (eapply ToyFacts.active_indicator; eauto; lra).
    assert (A2 : i "v2" = 1%Z)
      by (eapply ToyFacts.active_indicator; eauto; lra).
    destruct (Hi _ I1) as (_ & _ & D1). destruct (Hi _ I2) as (_ & _ & D2).
    destruct (Hi _ I3) as (B3 & _ & D3).
    rewrite A1, ToyFacts.drop_v1 in D1. rewrite A2, ToyFacts.drop_v2 in D2.
    rewrite ToyFacts.drop_v3 in D3. simpl in D1, D2.
    destruct (IndicatorFacts.binary_cases _ B3) as [E3|E3];
      rewrite E3 in D3; simpl in D3; lra. }
  intros r Hr. unfold reactions in Hr. simpl in Hr.
  destruct Hr as [<-|[<-|[<-|[<-|[<-|[]]]]]]; lra.
Qed.

Lemma X6_small_bound_blocks_path_witness :
  (1 < 2)%R /\ loopless 1 (uniform 1) (through 0) /\ through 0 "DM_C" = 0%R.
Proof.
  assert (HM : (1 < 2)%R) by lra.
  assert (H : loopless 1 (uniform 1) (through 0))
    by (apply ToyFacts.zero_loopless; lra).
  split; [exact HM|]. split; [exact H|].
  apply (X6_small_bound_blocks_path 1 (uniform 1) (through 0) HM H).
  unfold reactions. simpl. tauto.
Defined.

(** X7. The matrix form of the loopless notebook says what its constraints
    say: for the internal reactions, the block rows -v + max(ub) i >= 0 and
    (max(ub) + 1) i + S^T x <= max(ub) hold exactly when max(ub) i >= v and
    S^T x - (1 - i) (max(ub) + 1) <= -1 hold. *)
Theorem X7_matrix_form (M : R) (v : fluxes) (i : string -> Z) (x : string -> R) :
  indicated M v i x <-> matrix_rows M v i x.
Proof.
  unfold indicated, matrix_rows.
  split; intros H r Hr; destruct (H r Hr) as (Hb & H1 & H2);
    (split; [exact Hb|]); split; lra.
Qed.

(** X8. What cells 4 and 5 record agrees with the model at the upper
    bound 1000: the Solution of cell 4 shows the objective 1000, the
    loopless optimum for that bound, and the Solution of cell 5, after
    v3.lower_bound = 1, shows no value but infeasible, as no loopless
    state exists. *)
Theorem X8_recorded_solutions :
  map shown_objective (Values.outputs_at Docs.loopless 4) = [ Some 1000%Q ] /\
  (loopless 1000 (uniform 1000) (through 1000) /\
   objective (through 1000) = 1000%R /\
   forall v, loopless 1000 (uniform 1000) v -> (objective v <= 1000)%R) /\
  map shown_objective (Values.outputs_at Docs.loopless 5) = [ None ] /\
  map Nb.shown (Values.outputs_at Docs.loopless 5)
    = [ [ "<Solution 'infeasible' at 0x7f003ad82f10>" ] ] /\
  Values.attribute_constant "v3" "lower_bound" (Py.all_statements Docs.loopless)
    = Some 1%Q /\
  (forall v, ~ loopless 1000 (with_lower_bound "v3" 1 (uniform 1000)) v).
Proof.
  split; [by_evaluation|].
  split.
  { split; [apply ToyFacts.through_loopless; lra|].
    split; [reflexivity|].
    intros v (_ & Hb & _).
    destruct ToyFacts.in_reactions as (_ & RD & _).
    destruct (Hb _ RD) as (_ & _ & UD & _). exact UD. }
  split; [by_evaluation|].
  split; [by_evaluation|].
  split; [by_evaluation|].
  intro v. apply ToyFacts.forced_infeasible. lra.
Qed.

End Loopless.

(** ** Both indicators under one constraint *)

Module ExclusiveFacts.
Import Indicator Exclusive.

Lemma holds_unfold (vp vz : R) (bp bz : Z) :
  let x := state vp vz bp bz in
  (holds PGI_plus x <-> (vp - 1000 * IZR bp <= 0)%R) /\
  (holds PGI_minus x <-> (vp + 1000 * IZR bp >= 0)%R) /\
  (holds ZWF_plus x <-> (vz - 1000 * IZR bz <= 0)%R) /\
  (holds ZWF_minus x <-> (vz + 1000 * IZR bz >= 0)%R) /\
  (holds or_constraint x <-> (IZR bz + IZR bp = 1)%R).
Proof.
  cbv zeta. unfold holds, lhs, state. simpl.
  repeat split; intro H; lra.
Qed.

End ExclusiveFacts.

Section ExclusiveIndicators.
Import Indicator Exclusive.

(** X9. The constraint b_pgi + b_zwf = 1 keeps the two reactions from
    being active together: under the indicator constraints and binary
    indicators, exactly one indicator is 1 and at least one of the two
    fluxes is zero, the one whose indicator is 0. *)
Theorem X9_not_both_active (vp vz : R) (bp bz : Z) :
  binary bp -> binary bz ->
  indicators_hold (state vp vz bp bz) ->
  holds or_constraint (state vp vz bp bz) ->
  ((bp = 1%Z /\ bz = 0%Z /\ vz = 0%R) \/ (bp = 0%Z /\ bz = 1%Z /\ vp = 0%R)) /\
  (vp = 0%R \/ vz = 0%R).
Proof.
  intros Hp Hz (H1 & H2 & H3 & H4) Ho.
  destruct (ExclusiveFacts.holds_unfold vp vz bp bz) as (U1 & U2 & U3 & U4 & U5).
  apply U1 in H1. apply U2 in H2. apply U3 in H3. apply U4 in H4. apply U5 in Ho.
  destruct (IndicatorFacts.binary_cases _ Hp) as [-> | ->];
    destruct (IndicatorFacts.binary_cases _ Hz) as [-> | ->];
    simpl in *; try lra.
  - split; [right; repeat split; lra | left; lra].
  - split; [left; repeat split; lra | right; lra].
Qed.

Lemma X9_not_both_active_witness :
  binary 1 /\ binary 0 /\
  indicators_hold (state 5 0 1 0) /\ holds or_constraint (state 5 0 1 0) /\
  ((5 = 0)%R \/ (0 = 0)%R).
Proof.
  assert (Hp : binary 1) by (unfold binary; lia).
  assert (Hz : binary 0) by (unfold binary; lia).
  assert (Hi : indicators_hold (state 5 0 1 0)).
  { unfold indicators_hold, holds, lhs, state. simpl. repeat split; lra. }
  assert (Ho : holds or_constraint (state 5 0 1 0)).
  { unfold holds, lhs, state. simpl. lra. }
  split; [exact Hp|]. split; [exact Hz|]. split; [exact Hi|]. split; [exact Ho|].
  exact (proj2 (X9_not_both_active 5 0 1 0 Hp Hz Hi Ho)).
Defined.

(** X10. The constraint takes nothing else away: either reaction alone
    can still carry any flux between -1000 and 1000, with its indicator at
    1 and the other at 0. *)
Theorem X10_either_alone (v : R) :
  (-1000 <= v <= 1000)%R ->
  (indicators_hold (state v 0 1 0) /\ holds or_constraint (state v 0 1 0)) /\
  (indicators_hold (state 0 v 0 1) /\ holds or_constraint (state 0 v 0 1)).
Proof.
  intro Hv.
  unfold indicators_hold.
  destruct (ExclusiveFacts.holds_unfold v 0 1 0) as (U1 & U2 & U3 & U4 & U5).
  destruct (ExclusiveFacts.holds_unfold 0 v 0 1) as (W1 & W2 & W3 & W4 & W5).
  split; (split; [split; [|split; [|split]]|]).
  - apply U1. simpl. lra.
  - apply U2. simpl. lra.
  - apply U3. simpl. lra.
  - apply U4. simpl. lra.
  - apply U5. simpl. lra.
  - apply W1. simpl. lra.
  - apply W2. simpl. lra.
  - apply W3. simpl. lra.
  - apply W4. simpl. lra.
  - apply W5. simpl. lra.
Qed.

Lemma X10_either_alone_witness :
  (-1000 <= 9.82 <= 1000)%R /\ holds or_constraint (state 9.82 0 1 0).
Proof.
  assert (H : (-1000 <= 9.82 <= 1000)%R) by lra.
  split; [exact H|].
  exact (proj2 (proj1 (X10_either_alone 9.82 H))).
Defined.

(** X11. What cells 8 and 9 printed fits the constraints: the state of
    cell 8 (both indicators 1, fluxes 4.86 and 4.96) meets the four
    indicator constraints and not b_pgi + b_zwf = 1; the state of cell 9
    (indicators 1 and 0, fluxes 9.82 and 0.00) meets all five. *)
Theorem X11_printed_states :
  (exists x, recorded_state 8 = Some x /\
             indicators_hold x /\ ~ holds or_constraint x) /\
  (exists x, recorded_state 9 = Some x /\
             indicators_hold x /\ holds or_constraint x).
Proof.
  assert (E8 : recorded_state 8 = Some (state (Q2R (243 # 50)) (Q2R (124 # 25)) 1 1))
    by (unfold recorded_state;
        replace (printed_at 8 "PGI" "flux") with (Some (243 # 50)) by by_evaluation;
        replace (printed_at 8 "ZWF" "flux") with (Some (124 # 25)) by by_evaluation;
        replace (printed_at 8 "PGI" "indicator") with (Some 1%Q) by by_evaluation;
        replace (printed_at 8 "ZWF" "indicator") with (Some 1%Q) by by_evaluation;
        reflexivity).
  assert (E9 : recorded_state 9 = Some (state (Q2R (491 # 50)) (Q2R 0) 1 0))
    by (unfold recorded_state;
        replace (printed_at 9 "PGI" "flux") with (Some (491 # 50)) by by_evaluation;
        replace (printed_at 9 "ZWF" "flux") with (Some 0%Q) by by_evaluation;
        replace (printed_at 9 "PGI" "indicator") with (Some 1%Q) by by_evaluation;
        replace (printed_at 9 "ZWF" "indicator") with (Some 0%Q) by by_evaluation;
        reflexivity).
  split.
  - eexists. split; [exact E8|].
    unfold indicators_hold, holds, lhs, state, Q2R. simpl.
    split; [repeat split; lra | intro H; lra].
  - eexists. split; [exact E9|].
    unfold indicators_hold, holds, lhs, state, Q2R. simpl.
    repeat split; lra.
Qed.

End ExclusiveIndicators.

(** ** The ice-cream program at any budget *)

Module BudgetFacts.
Import Budget.

Lemma within_starting_budget (c p : Q) :
  within IceCream.starting_budget c p = IceCream.within_budget c p.
Proof. reflexivity. Qed.

Lemma affordable_unfold (B c p : Z) :
  affordable B c p <-> (0 <= c /\ 0 <= p /\ 3 * c + p <= B)%Z.
Proof.
  unfold affordable, within, IceCream.spent, IceCream.cone_production_cost,
    IceCream.popsicle_production_cost.
  rewrite !andb_true_iff, !Qle_bool_iff.
  unfold Qle, Qplus, Qmult, inject_Z. cbn -[Z.mul Z.add]. lia.
Qed.



End BudgetFacts.


Section AnyBudget.
Import Budget.



(** X13. A negative budget buys nothing: no plan at all is affordable,
    not even the empty one; at budget zero the empty plan is the only
    one. *)
Theorem X13_no_budget (B c p : Z) :
  (B <= 0)%Z ->
  affordable B c p ->
  B = 0%Z /\ c = 0%Z /\ p = 0%Z.
Proof.
  intros HB H. apply BudgetFacts.affordable_unfold in H. lia.
Qed.

Lemma X13_no_budget_witness :
  (0 <= 0)%Z /\ affordable 0 0 0 /\ 0%Z = 0%Z.
Proof.
  assert (HB : (0 <= 0)%Z) by lia.
  assert (H : affordable 0 0 0) by (vm_compute; reflexivity).
  split; [exact HB|]. split; [exact H|].
  exact (proj1 (X13_no_budget 0 0 0 HB H)).
Defined.



End AnyBudget.

(** ** The objective of the restaurant order *)

Module MenuFacts.
Import Restaurant Menu.

Lemma totalQ_total (v : order) :
  totalQ (fun d => inject_Z (v d)) = total v.
Proof. reflexivity. Qed.

Lemma fruit_in_dishes : In "mixed_fruit" dishes.
Proof. unfold dishes, costs. simpl. tauto. Qed.

Lemma objective_range (v : order) :
  satisfies v -> (1 <= objective v <= 7)%Z.
Proof.
  intro H. unfold objective.
  destruct (RestaurantFacts.only_two v H) as [A|A];
    rewrite (A _ fruit_in_dishes); vm_compute; split; discriminate.
Qed.

End MenuFacts.

Section Objective.
Import Restaurant Menu.

(** X15. With mixed fruit as the objective, minimising gives the order of
    cell 5 and maximising the order of cell 6: every order that pays the
    bill has between 1 and 7 mixed fruit, only two hot wings, one mixed
    fruit and one sampler plate reach 1 and only seven mixed fruit reach
    7, so no order avoids mixed fruit altogether. *)
Theorem X15_objective_extremes :
  minimizes wings_fruit_sampler /\
  maximizes seven_fruit /\
  (forall v, minimizes v -> agree v wings_fruit_sampler) /\
  (forall v, maximizes v -> agree v seven_fruit) /\
  agree (order_of recorded_minimize) wings_fruit_sampler /\
  agree (order_of recorded_maximize) seven_fruit.
Proof.
  pose proof RestaurantFacts.satisfies_wings_fruit_sampler as Sw.
  pose proof RestaurantFacts.satisfies_seven_fruit as Ss.
  destruct RestaurantFacts.recorded_orders as (_ & _ & _ & _ & A1 & A2).
  split; [|split; [|split; [|split; [|split]]]]; try assumption.
  - split; [exact Sw|]. intros w Hw.
    pose proof (MenuFacts.objective_range w Hw).
    change (objective wings_fruit_sampler) with 1%Z. lia.
  - split; [exact Ss|]. intros w Hw.
    pose proof (MenuFacts.objective_range w Hw).
    change (objective seven_fruit) with 7%Z. lia.
  - intros v [Hv Hmin]. specialize (Hmin _ Sw).
    change (objective wings_fruit_sampler) with 1%Z in Hmin.
    destruct (RestaurantFacts.only_two v Hv) as [A|A]; [exact A|].
    exfalso. unfold objective in Hmin.
    rewrite (A _ MenuFacts.fruit_in_dishes) in Hmin.
    vm_compute in Hmin. apply Hmin. reflexivity.
  - intros v [Hv Hmax]. specialize (Hmax _ Ss).
    change (objective seven_fruit) with 7%Z in Hmax.
    destruct (RestaurantFacts.only_two v Hv) as [A|A]; [|exact A].
    exfalso. unfold objective in Hmax.
    rewrite (A _ MenuFacts.fruit_in_dishes) in Hmax.
    vm_compute in Hmax. apply Hmax. reflexivity.
Qed.

Lemma X15_objective_extremes_witness :
  minimizes wings_fruit_sampler /\ agree wings_fruit_sampler wings_fruit_sampler.
Proof.
  assert (H : minimizes wings_fruit_sampler) by exact (proj1 X15_objective_extremes).
  split; [exact H|].
  exact (proj1 (proj2 (proj2 X15_objective_extremes)) wings_fruit_sampler H).
Defined.

(** X16. The whole numbers matter: without variable_kind = integer the
    bill can be paid with any amount t of mixed fruit between 0 and 7,
    the rest going to french fries, so the minimum of the objective would
    be 0 and not 1. *)
Theorem X16_relaxed_order (t : Q) :
  0 <= t -> t <= 7 ->
  relaxed (fruit_and_fries t) /\ fruit_and_fries t "mixed_fruit" == t.
Proof.
  intros H0 H7. split; [|reflexivity].
  split.
  - intros d Hd. each_dish Hd; unfold fruit_and_fries; simpl;
      try apply Qle_refl; try exact H0.
    unfold total_cost_bound. apply Qle_shift_div_l; [reflexivity|]. Lqa.lra.
  - unfold totalQ, costs, fruit_and_fries, total_cost_bound.
    cbn [fold_right fst snd String.eqb Ascii.eqb Bool.eqb]. field.
Qed.

Lemma X16_relaxed_order_witness :
  0 <= 0 /\ (0:Q) <= 7 /\ relaxed (fruit_and_fries 0).
Proof.
  assert (H0 : 0 <= 0) by apply Qle_refl.
  assert (H7 : (0:Q) <= 7) by (vm_compute; discriminate).
  split; [exact H0|]. split; [exact H7|].
  exact (proj1 (X16_relaxed_order 0 H0 H7)).
Defined.

End Objective.

(** ** Running the notebooks, the figure and the jobs *)

Module JobFacts.
Import Travis Job.

Lemma run_for_plain (v cmd : string) :
  conditional cmd = None -> run_for v cmd = [ cmd ].
Proof. intro H. unfold run_for. rewrite H. reflexivity. Qed.

Lemma run_for_conditional (v cmd pattern body : string) :
  conditional cmd = Some (pattern, body) ->
  run_for v cmd = if glob pattern v then [ body ] else [].
Proof. intro H. unfold run_for. rewrite H. reflexivity. Qed.

Lemma glob_two (v : string) : glob "2*" v = prefix "2" v.
Proof. reflexivity. Qed.

End JobFacts.

Section Documents.
Import Text Nb Py Docs Captured.

(** X17. The notebooks were run from top to bottom: in each document the
    code cells are numbered 1, 2, 3, ... in the order they stand, and every
    result shown carries the execution count of its own cell. *)
Theorem X17_run_in_order :
  Forall (fun nb => Run.numbered nb = true /\
                    Forall (fun c => Run.results_counted c = true) nb)
         repository.
Proof.
  apply DocFacts.on_repository;
    (split; [by_evaluation | apply forallb_Forall; by_evaluation]).
Qed.

(** X18. No code cell reads a name before it is bound: every name a
    statement reads is bound by an earlier statement of the same document
    or is a builtin, and in the loopless notebook the only names left to
    the star import of matplotlib.pylab are its seven plotting
    functions. *)
Theorem X18_names_bound_before_use :
  Forall (fun nb => Run.unbound_reads nb = []) repository /\
  Run.star_reads milp = [] /\
  Run.star_reads faq = [] /\
  Run.star_reads loopless
    = [ "figure"; "gca"; "xlim"; "ylim"; "arrow"; "scatter"; "text" ] /\
  Run.unbound_reads [ Sample.cell_with_def ] <> [].
Proof.
  split; [apply DocFacts.on_repository; by_evaluation|].
  split; [by_evaluation|].
  split; [by_evaluation|].
  split; [by_evaluation|].
  vm_compute. discriminate.
Qed.

(** X19. The figure of the loopless notebook shows the model the next
    cell builds: its labels, TeX taken out, are exactly the five reactions
    and the three metabolites of the toy network, each once, with one
    arrow for each reaction and one dot for each metabolite. *)
Theorem X19_figure_shows_model :
  (forall l, In l Figure.labels <-> In l (Toy.reactions ++ Toy.metabolites)%list) /\
  NoDup Figure.labels /\
  Figure.arrows = List.length Toy.reactions /\
  Figure.dots = List.length Toy.metabolites.
Proof.
  assert (E : Figure.labels = [ "EX_A"; "v1"; "v2"; "v3"; "DM_C"; "A"; "B"; "C" ])
    by by_evaluation.
  split; [|split; [|split]].
  - intro l. rewrite E. unfold Toy.reactions, Toy.metabolites, Toy.stoichiometry.
    simpl. tauto.
  - rewrite E.
    repeat (apply NoDup_cons; [simpl; intuition discriminate|]).
    apply NoDup_nil.
  - by_evaluation.
  - by_evaluation.
Qed.

(** X20. What a job of the matrix runs: for any Python version, the
    three pip installs, then lxml and glpk if and only if the version
    starts with 2, then the download of esolver and its unpacking onto the
    PATH, then the install and the tests.  Of the three versions of the
    matrix only 2.7 installs glpk, and the pip cache directory of the
    environment is the directory the configuration caches. *)
Theorem X20_job_commands (v : string) :
  Job.job Travis.travis_yml v =
    ([ "pip install pip --upgrade";
       "pip install numpy scipy python-libsbml -v";
       "pip install cython coveralls jsonschema six" ]
     ++ (if prefix "2" v then [ "pip install lxml glpk" ] else [])
     ++ [ "wget https://opencobra.github.io/pypi_cobrapy_travis/esolver.gz";
          "gzip -d esolver.gz; chmod +x esolver; export PATH=$PATH:$PWD";
          "python setup.py develop";
          "coverage run --source=cobra setup.py test" ])%list /\
  map (prefix "2") (Travis.python Travis.travis_yml) = [ true; false; false ] /\
  (exists d, Job.setting "PIP_CACHE_DIR" (Travis.env Travis.travis_yml) = Some d /\
             In d (Travis.cache_directories Travis.travis_yml)).
Proof.
  split; [|split].
  - unfold Job.job, Travis.travis_yml, Travis.before_install, Travis.install,
      Travis.script.
    cbn [flat_map].
    rewrite (JobFacts.run_for_plain v "pip install pip --upgrade") by by_evaluation.
    rewrite (JobFacts.run_for_plain v "pip install numpy scipy python-libsbml -v")
      by by_evaluation.
    rewrite (JobFacts.run_for_plain v "pip install cython coveralls jsonschema six")
      by by_evaluation.
    rewrite (JobFacts.run_for_conditional v _ "2*" "pip install lxml glpk")
      by by_evaluation.
    rewrite (JobFacts.run_for_plain v
      "wget https://opencobra.github.io/pypi_cobrapy_travis/esolver.gz")
      by by_evaluation.
    rewrite (JobFacts.run_for_plain v
      "gzip -d esolver.gz; chmod +x esolver; export PATH=$PATH:$PWD")
      by by_evaluation.
    rewrite JobFacts.glob_two.
    destruct (prefix "2" v); reflexivity.
  - by_evaluation.
  - eexists. split; [by_evaluation|]. simpl. left. reflexivity.
Qed.

(** X21. The models above are the ones the cells write: the columns of the
    toy network, the rows and senses of the four indicator constraints,
    the row and bound of the constraint on both indicators and the row and
    sense of the budget are what the add_metabolites calls and the
    attribute assignments of the code cells give. *)
Theorem X21_models_as_written :
  map (fun rt => (fst rt, Written.whole_terms (snd rt)))
      (Written.columns (all_statements loopless)) = Toy.stoichiometry /\
  (let sts := all_statements milp in
   Written.whole_terms (Written.row "PGI_plus" sts)
     = rev (Indicator.coefficients Indicator.PGI_plus) /\
   Written.whole_terms (Written.row "PGI_minus" sts)
     = rev (Indicator.coefficients Indicator.PGI_minus) /\
   Written.whole_terms (Written.row "ZWF_plus" sts)
     = rev (Indicator.coefficients Indicator.ZWF_plus) /\
   Written.whole_terms (Written.row "ZWF_minus" sts)
     = rev (Indicator.coefficients Indicator.ZWF_minus) /\
   Written.whole_terms (Written.row "or" sts)
     = Indicator.coefficients Exclusive.or_constraint /\
   Values.attribute_constant "or_constraint" "_bound" sts
     = Some (inject_Z (Indicator.constraint_bound Exclusive.or_constraint)) /\
   map (fun x => Written.attribute_literal x "_constraint_sense" sts)
       [ "pgi_plus"; "pgi_minus"; "zwf_plus"; "zwf_minus"; "or_constraint"; "budget" ]
     = [ Some "L"; Some "G"; Some "L"; Some "G"; None; Some "L" ] /\
   Written.row "budget" sts
     = [ ("cone", Qred IceCream.cone_production_cost);
         ("popsicle", Qred IceCream.popsicle_production_cost) ]).
Proof.
  split; [by_evaluation|].
  vm_compute. repeat split; reflexivity.
Qed.

End Documents.

(** ** The loopless constraints break every cycle *)

Module NetworkFacts.
Import Network.

Lemma sum_zero (A : Type) (l : list A) : sum (fun _ => 0%R) l = 0%R.
Proof. induction l as [|a l IH]; simpl; [reflexivity | rewrite IH; lra]. Qed.

Lemma sum_plus (A : Type) (f g : A -> R) (l : list A) :
  sum (fun a => (f a + g a)%R) l = (sum f l + sum g l)%R.
Proof. induction l as [|a l IH]; simpl; [lra | rewrite IH; lra]. Qed.

Lemma sum_scal (A : Type) (c : R) (f : A -> R) (l : list A) :
  sum (fun a => (c * f a)%R) l = (c * sum f l)%R.
Proof. induction l as [|a l IH]; simpl; [lra | rewrite IH; lra]. Qed.

Lemma sum_ext (A : Type) (f g : A -> R) (l : list A) :
  (forall a, In a l -> f a = g a) -> sum f l = sum g l.
Proof.
  induction l as [|a l IH]; simpl; intro H; [reflexivity|].
  rewrite (H a (or_introl eq_refl)), IH; [reflexivity|].
  intros b Hb. apply H. right. exact Hb.
Qed.

Lemma sum_swap (A B : Type) (f : A -> B -> R) (la : list A) (lb : list B) :
  sum (fun a => sum (fun b => f a b) lb) la
  = sum (fun b => sum (fun a => f a b) la) lb.
Proof.
  induction la as [|a la IH]; simpl.
  - rewrite sum_zero. reflexivity.
  - rewrite IH, <- sum_plus. reflexivity.
Qed.

(** One metabolite picked out of a list without repetition. *)
Lemma sum_pick (n : string) (c : Z) (x : string -> R) (mets : list string) :
  NoDup mets -> In n mets ->
  sum (fun m => (IZR (if String.eqb n m then c else 0) * x m)%R) mets
  = (IZR c * x n)%R.
Proof.
  induction mets as [|m mets IH]; intros Hnd Hin; [destruct Hin|].
  inversion Hnd as [|? ? Hnotin Hnd']; subst. simpl.
  destruct (String.eqb_spec n m) as [E|E].
  - subst m.
    rewrite (sum_ext _ _ (fun _ => 0%R)).
    + rewrite sum_zero. lra.
    + intros a Ha. destruct (String.eqb_spec n a) as [E'|_].
      * subst a. contradiction.
      * simpl. lra.
  - destruct Hin as [Hin|Hin]; [congruence|].
    rewrite (IH Hnd' Hin). simpl. lra.
Qed.

Lemma coefficient_cons (n : string) (c : Z) (ts : list (string * Z)) (m : string) :
  IZR (Toy.coefficient ((n, c) :: ts) m)
  = (IZR (if String.eqb n m then c else 0) + IZR (Toy.coefficient ts m))%R.
Proof.
  unfold Toy.coefficient. simpl.
  destruct (String.eqb n m); [rewrite plus_IZR; reflexivity | simpl; lra].
Qed.

(** The change of potential along a reaction, metabolite by metabolite. *)
Lemma drop_by_metabolite (ts : list (string * Z)) (x : string -> R) (mets : list string) :
  NoDup mets ->
  (forall t, In t ts -> In (fst t) mets) ->
  drop ts x = sum (fun m => (IZR (Toy.coefficient ts m) * x m)%R) mets.
Proof.
  intros Hnd. induction ts as [|[n c] ts IH]; intro Hin.
  - unfold drop. simpl. rewrite (sum_ext _ _ (fun _ => 0%R)).
    + rewrite sum_zero. reflexivity.
    + intros a _. unfold Toy.coefficient. simpl. lra.
  - transitivity (sum (fun m =>
      (IZR (if String.eqb n m then c else 0) * x m
       + IZR (Toy.coefficient ts m) * x m)%R) mets).
    + rewrite sum_plus, sum_pick;
        [| exact Hnd | apply (Hin (n, c)); left; reflexivity].
      rewrite <- IH by (intros t Ht; apply Hin; right; exact Ht).
      reflexivity.
    + apply sum_ext. intros m _. rewrite coefficient_cons. lra.
Qed.

Lemma closed_In (net : network) (mets : list string) :
  closed net mets = true ->
  forall rt t, In rt net -> In t (snd rt) -> In (fst t) mets.
Proof.
  intros H rt t Hrt Ht. unfold closed in H.
  rewrite forallb_forall in H. specialize (H rt Hrt).
  rewrite forallb_forall in H. specialize (H t Ht).
  unfold Text.mem in H. apply existsb_exists in H.
  destruct H as (m & Hm & E). apply String.eqb_eq in E. subst m. exact Hm.
Qed.

(** Weighted by a cycle, the changes of potential cancel. *)
Lemma cycle_cancels (net : network) (mets : list string)
      (w x : string -> R) :
  NoDup mets -> closed net mets = true ->
  (forall m, In m mets -> production net w m = 0%R) ->
  sum (fun rt => (w (fst rt) * drop (snd rt) x)%R) net = 0%R.
Proof.
  intros Hnd Hcl Hzero.
  rewrite (sum_ext _ _ (fun rt =>
    sum (fun m => (x m * (IZR (Toy.coefficient (snd rt) m) * w (fst rt)))%R) mets)).
  - rewrite sum_swap.
    rewrite (sum_ext _ _ (fun _ => 0%R)); [apply sum_zero|].
    intros m Hm. rewrite sum_scal.
    fold (production net w m). rewrite (Hzero m Hm). lra.
  - intros rt Hrt.
    rewrite (drop_by_metabolite (snd rt) x mets Hnd)
      by (intros t Ht; exact (closed_In net mets Hcl rt t Hrt Ht)).
    rewrite <- sum_scal. apply sum_ext. intros m _. lra.
Qed.

(** If every reaction a cycle uses has its indicator at 1, the changes of
    potential, weighted by the cycle, fall below minus its weight. *)
Lemma active_cycle_drops (net full : network) (M : R) (v w : string -> R)
      (i : string -> Z) (x : string -> R) :
  indicated full M v i x ->
  (forall rt, In rt net -> In rt full) ->
  (forall rt, In rt net -> (0 <= w (fst rt))%R) ->
  (forall rt, In rt net -> (0 < w (fst rt))%R -> i (fst rt) = 1%Z) ->
  (sum (fun rt => (w (fst rt) * drop (snd rt) x)%R) net
   <= - sum (fun rt => w (fst rt)) net)%R.
Proof.
  intros Hi. induction net as [|rt net IH]; intros Hsub Hpos Hact; simpl; [lra|].
  assert (IH' : (sum (fun rt => (w (fst rt) * drop (snd rt) x)%R) net
                 <= - sum (fun rt => w (fst rt)) net)%R).
  { apply IH; intros; [apply Hsub | apply Hpos | apply Hact]; try right; assumption. }
  pose proof (Hpos rt (or_introl eq_refl)) as Hw.
  destruct (Rle_lt_or_eq_dec _ _ Hw) as [P|E].
  - pose proof (Hact rt (or_introl eq_refl) P) as E1.
    destruct (Hi rt (Hsub rt (or_introl eq_refl))) as (_ & _ & D).
    rewrite E1 in D. simpl in D.
    assert (D' : (drop (snd rt) x <= -1)%R) by lra.
    assert ((w (fst rt) * drop (snd rt) x <= - w (fst rt))%R) by nra.
    lra.
  - rewrite <- E. lra.
Qed.

Lemma sum_positive (net : network) (w : string -> R) :
  (forall rt, In rt net -> (0 <= w (fst rt))%R) ->
  (exists rt, In rt net /\ (0 < w (fst rt))%R) ->
  (0 < sum (fun rt => w (fst rt)) net)%R.
Proof.
  induction net as [|rt net IH]; intros Hpos (r & Hr & Hw); [destruct Hr|].
  simpl.
  assert (Hnn : (0 <= sum (fun rt => w (fst rt)) net)%R).
  { clear IH Hr Hw. induction net as [|a net IHn]; simpl; [lra|].
    pose proof (Hpos a (or_intror (or_introl eq_refl))).
    assert ((0 <= sum (fun rt0 => w (fst rt0)) net)%R).
    { apply IHn. intros b [Hb|Hb]; apply Hpos; [left | right; right]; assumption. }
    lra. }
  pose proof (Hpos rt (or_introl eq_refl)).
  destruct Hr as [Hr|Hr].
  - subst r. lra.
  - assert ((0 < sum (fun rt => w (fst rt)) net)%R).
    { apply IH; [intros; apply Hpos; right; assumption | exists r; split; assumption]. }
    lra.
Qed.

(** Either some reaction the cycle uses has its indicator at 0, or all of
    them have it at 1. *)
Lemma some_inactive_or_all_active (net full : network) (M : R) (v w : string -> R)
      (i : string -> Z) (x : string -> R) :
  indicated full M v i x ->
  (forall rt, In rt net -> In rt full) ->
  (exists rt, In rt net /\ (0 < w (fst rt))%R /\ i (fst rt) = 0%Z) \/
  (forall rt, In rt net -> (0 < w (fst rt))%R -> i (fst rt) = 1%Z).
Proof.
  intros Hi. induction net as [|rt net IH]; intro Hsub.
  - right. intros rt [].
  - destruct IH as [(r & Hr & Hw & E)|Hall].
    + intros; apply Hsub; right; assumption.
    + left. exists r. split; [right; exact Hr | split; assumption].
    + destruct (Hi rt (Hsub rt (or_introl eq_refl))) as (Hb & _).
      destruct (IndicatorFacts.binary_cases _ Hb) as [E|E].
      * destruct (Rlt_dec 0 (w (fst rt))) as [P|N].
        -- left. exists rt. split; [left; reflexivity | split; assumption].
        -- right. intros r [<-|Hr] Hw; [contradiction | apply Hall; assumption].
      * right. intros r [<-|Hr] Hw; [exact E | apply Hall; assumption].
Qed.

Lemma toy_indicated (M : R) (v : string -> R) (i : string -> Z) (x : string -> R) :
  Toy.indicated M v i x <-> indicated toy M v i x.
Proof.
  unfold Toy.indicated, indicated. split.
  - intros H rt Hrt. simpl in Hrt.
    destruct Hrt as [<-|[<-|[<-|[]]]]; simpl;
      [apply (H "v1") | apply (H "v2") | apply (H "v3")]; simpl; tauto.
  - intros H r Hr. simpl in Hr.
    destruct Hr as [<-|[<-|[<-|[]]]].
    + apply (H ("v1", [ ("A", (-1)%Z); ("B", 1%Z) ])). simpl. tauto.
    + apply (H ("v2", [ ("B", (-1)%Z); ("C", 1%Z) ])). simpl. tauto.
    + apply (H ("v3", [ ("C", (-1)%Z); ("A", 1%Z) ])). simpl. tauto.
Qed.

End NetworkFacts.

Section AnyNetwork.
Import Network.

(** X22. On any network the loopless constraints break every cycle: if
    the indicators and potentials meet the constraints and the fluxes are
    nonnegative, then every cycle of the internal reactions (nonnegative
    weights, not all zero, that change no metabolite) uses some reaction
    whose indicator is 0 and whose flux is therefore zero. *)
Theorem X22_loopless_breaks_cycles
        (net : network) (mets : list string) (M : R)
        (v w : string -> R) (i : string -> Z) (x : string -> R) :
  NoDup mets ->
  closed net mets = true ->
  indicated net M v i x ->
  (forall rt, In rt net -> (0 <= v (fst rt))%R) ->
  cycle net mets w ->
  exists rt, In rt net /\ (0 < w (fst rt))%R /\
             i (fst rt) = 0%Z /\ v (fst rt) = 0%R.
Proof.
  intros Hnd Hcl Hi Hv (Hpos & Hzero & Hsome).
  destruct (NetworkFacts.some_inactive_or_all_active net net M v w i x Hi
              (fun _ H => H)) as [(rt & Hrt & Hw & E)|Hall].
  - exists rt. split; [exact Hrt|]. split; [exact Hw|]. split; [exact E|].
    destruct (Hi rt Hrt) as (_ & Hb & _). rewrite E in Hb. simpl in Hb.
    pose proof (Hv rt Hrt). lra.
  - exfalso.
    pose proof (NetworkFacts.active_cycle_drops net net M v w i x Hi
                  (fun _ H => H) Hpos Hall) as Hdrop.
    rewrite (NetworkFacts.cycle_cancels net mets w x Hnd Hcl Hzero) in Hdrop.
    pose proof (NetworkFacts.sum_positive net w Hpos Hsome). lra.
Qed.

Lemma X22_loopless_breaks_cycles_witness :
  cycle toy Toy.metabolites (fun _ => 1%R) /\
  exists rt, In rt toy /\ Toy.through 7 (fst rt) = 0%R.
Proof.
  assert (Hnd : NoDup Toy.metabolites).
  { unfold Toy.metabolites.
    repeat (apply NoDup_cons; [simpl; intuition discriminate|]). apply NoDup_nil. }
  assert (Hcl : closed toy Toy.metabolites = true) by by_evaluation.
  assert (Hi : indicated toy 1000 (Toy.through 7)
                 (fun r => if String.eqb r "v3" then 0%Z else 1%Z)
                 (fun m => if String.eqb m "A" then 2%R
                           else if String.eqb m "B" then 1%R else 0%R)).
  { intros rt Hrt. simpl in Hrt.
    destruct Hrt as [<-|[<-|[<-|[]]]];
      (split; [unfold Indicator.binary; simpl; lia|]);
      unfold Toy.through, drop; simpl; split; lra. }
  assert (Hv : forall rt, In rt toy -> (0 <= Toy.through 7 (fst rt))%R).
  { intros rt Hrt. simpl in Hrt.
    destruct Hrt as [<-|[<-|[<-|[]]]]; unfold Toy.through; simpl; lra. }
  assert (Hc : cycle toy Toy.metabolites (fun _ => 1%R)).
  { split; [intros; lra|]. split.
    - intros m Hm. simpl in Hm.
      destruct Hm as [<-|[<-|[<-|[]]]]; unfold production; simpl; lra.
    - exists ("v1", [ ("A", (-1)%Z); ("B", 1%Z) ]). split; [simpl; tauto | lra]. }
  split; [exact Hc|].
  destruct (X22_loopless_breaks_cycles toy Toy.metabolites 1000 (Toy.through 7)
              (fun _ => 1%R) _ _ Hnd Hcl Hi Hv Hc) as (rt & Hrt & _ & _ & Hz).
  exists rt. split; assumption.
Defined.

End AnyNetwork.
